(** * Remini client: a shallow embedding of [remini.py]

    The client of [remini.py] is a sequential program that talks to a remote
    service and to the local file system.  It is embedded here as a state and
    exception monad over a record holding the client object ([Remini], the
    attributes of [self]) and the world around it ([World]: the files, the
    answers of the service, the log of the requests issued so far).

    Values that come out of [json.load] and [response.json()] are dynamically
    typed in the source; they are kept as such ([json]) and every place where
    the source tests a value for truth, calls [.get] on it or hands it to
    [httpx] is written out with the exception Python raises there. *)

From Stdlib Require Import ZArith String Ascii List Bool Lia DecimalString.
From stdpp Require Import base option list strings gmap fin_maps.

Local Open Scope string_scope.
Local Open Scope list_scope.

(** ** Python values decoded from JSON *)

#[warnings="-register-all"]
Inductive json : Type :=
| JNull
| JBool (b : bool)
| JNum (z : Z)
| JStr (s : string)
| JArr (items : list json)
| JObj (fields : list (string * json)).

(** Python's truth test, as used by [if x], [not x], [and] and [all]. *)
Definition truthy (v : json) : bool :=
  match v with
  | JNull => false
  | JBool b => b
  | JNum z => negb (z =? 0)%Z
  | JStr s => negb (String.eqb s "")
  | JArr items => match items with [] => false | _ => true end
  | JObj fields => match fields with [] => false | _ => true end
  end.

Definition is_str (v : json) : bool :=
  match v with JStr _ => true | _ => false end.

(** A [dict] is the list of its items; a key occurs once. *)
Fixpoint assoc (k : string) (fields : list (string * json)) : option json :=
  match fields with
  | [] => None
  | (k', v) :: rest => if String.eqb k k' then Some v else assoc k rest
  end.

(** [v.get(k, default)]: [None] stands for the [AttributeError] Python
    raises when [v] is not a [dict]. *)
Definition dict_get (v : json) (k : string) (default : json) : option json :=
  match v with
  | JObj fields => Some (match assoc k fields with Some x => x | None => default end)
  | _ => None
  end.

(** ** Files and payloads *)

(** What a file or an HTTP body holds: the text [json.dump] writes for a
    value (which [json.load] reads back as that value), text that is not a
    JSON document, or bytes that are not text at all. *)
Inductive content : Type :=
| Json (v : json)
| Garbled (text : string)
| Binary (bytes : string).

Inductive file : Type :=
| Unreadable
| Readable (c : content).

(** ** HTTP *)

Inductive method : Type := GET | POST | PUT.

Record request : Type := {
  meth : method;
  url : string;
  headers : gmap string json;
  body : option content
}.

Inductive reply : Type :=
| TransportError
| Response (status_code : Z) (payload : content).

(** ** Exceptions *)

(** The places where the source raises [ReminiError]. *)
Inductive remini_error : Type :=
| SetupHttpError (code : Z)
| TokenNotFound (data : json)
| ActivationFailed
| GcsUploadFailed (code : Z)
| MissingFields (upload_info : json)
| UploadUrlFailed (code : Z)
| NoNewTaskId (data : json)
| ReprocessFailed (code : Z)
| PingFailed (code : Z)
| PollingFailed (code : Z)
| TaskFailed (errors : json)
| NoFinalUrl
| BaseTaskIncomplete.

Inductive exn : Type :=
| ReminiError (why : remini_error)
| FileNotFoundError (path : string)
| IOError
| JSONDecodeError
| UnicodeDecodeError
| HTTPStatusError (code : Z)
| RequestError
| AttributeError
| KeyError
| ResponseNotRead
| TypeError.

(** ** The client object and the world *)

Record device_ids : Type := {
  android_id : string;
  aaid : string;
  backup_persistent_id : string;
  non_backup_persistent_id : string
}.

Record Remini : Type := {
  token_path : string;
  identity_token : json;
  _device_ids : device_ids;
  _android_headers : gmap string string
}.

Record datetime : Type := {
  year : nat; month : nat; day : nat;
  hour : nat; minute : nat; second : nat
}.

Record World : Type := {
  fs : gmap string file;          (* the local files, by path *)
  net : nat -> reply;             (* the answer to the n-th request of the run *)
  sent : list request;            (* the requests issued so far, oldest first *)
  naps : nat;                     (* how many times the poller has slept *)
  install_stamp : string;         (* the text of the first-install-timestamp header *)
  clock : datetime                (* local time, as [datetime.now()] reads it *)
}.

Record State : Type := { self : Remini; world : World }.

(** ** The monad *)

(** A call returns, raises, or is still inside [while True] when the
    iterations it was given are used up ([Spin]). *)
Inductive outcome (A : Type) : Type :=
| Ret (a : A)
| Raise (e : exn)
| Spin.
Arguments Ret {A} a.
Arguments Raise {A} e.
Arguments Spin {A}.

Definition M (A : Type) : Type := State -> outcome A * State.

Definition ret {A} (a : A) : M A := fun s => (Ret a, s).
Definition raise {A} (e : exn) : M A := fun s => (Raise e, s).

Definition bind {A B} (m : M A) (k : A -> M B) : M B :=
  fun s =>
    match m s with
    | (Ret a, s') => k a s'
    | (Raise e, s') => (Raise e, s')
    | (Spin, s') => (Spin, s')
    end.

Notation "'let*' x ':=' m 'in' k" := (bind m (fun x => k))
  (at level 10, x name, m at level 100, k at level 200).
Notation "m1 ';;' m2" := (bind m1 (fun _ => m2))
  (at level 100, m2 at level 200, right associativity).

(** [try: m except h]: [h e] is the handler of the [except] clause that
    matches [e], if there is one. *)
Definition try_except {A} (m : M A) (h : exn -> option (M A)) : M A :=
  fun s =>
    match m s with
    | (Raise e, s') => match h e with Some k => k s' | None => (Raise e, s') end
    | r => r
    end.

Definition get_self : M Remini := fun s => (Ret (self s), s).
Definition get_world : M World := fun s => (Ret (world s), s).

(** [self.identity_token = v] *)
Definition with_token (c : Remini) (v : json) : Remini :=
  {| token_path := token_path c;
     identity_token := v;
     _device_ids := _device_ids c;
     _android_headers := _android_headers c |}.

Definition set_identity_token (v : json) : M unit :=
  fun s => (Ret tt, {| self := with_token (self s) v; world := world s |}).

(** ** Primitive effects *)

(** [httpx] accepts [str] header values only; anything else makes the call
    raise before a request leaves the client. *)
Definition sendable (h : gmap string json) : bool :=
  bool_decide (map_Forall (fun _ v => is_str v = true) h).

Definition log_request (r : request) (w : World) : World :=
  {| fs := fs w; net := net w; sent := sent w ++ [r]; naps := naps w;
     install_stamp := install_stamp w; clock := clock w |}.

Definition with_file (path : string) (f : file) (w : World) : World :=
  {| fs := <[path := f]> (fs w); net := net w; sent := sent w; naps := naps w;
     install_stamp := install_stamp w; clock := clock w |}.

Definition with_nap (w : World) : World :=
  {| fs := fs w; net := net w; sent := sent w; naps := S (naps w);
     install_stamp := install_stamp w; clock := clock w |}.

(** One HTTP exchange: the request is logged and the service's next answer
    comes back; a transport failure raises [httpx.RequestError]. *)
Definition http (r : request) : M (Z * content) :=
  fun s =>
    if sendable (headers r) then
      let w := world s in
      let s' := {| self := self s; world := log_request r w |} in
      match net w (length (sent w)) with
      | TransportError => (Raise RequestError, s')
      | Response code payload => (Ret (code, payload), s')
      end
    else (Raise TypeError, s).

(** [response.is_success]: the 2xx codes. *)
Definition is_success (code : Z) : bool := ((200 <=? code) && (code <=? 299))%Z.

(** [response.raise_for_status()]: [HTTPStatusError] unless the code is 2xx. *)
Definition raise_for_status (code : Z) : M unit :=
  if is_success code then ret tt else raise (HTTPStatusError code).

(** [response.json()] and [json.load]. *)
Definition json_of (c : content) : M json :=
  match c with
  | Json v => ret v
  | Garbled _ => raise JSONDecodeError
  | Binary _ => raise UnicodeDecodeError
  end.

(** [v.get(k, default)] *)
Definition py_get (v : json) (k : string) (default : json) : M json :=
  match dict_get v k default with
  | Some x => ret x
  | None => raise AttributeError
  end.

(** [os.path.exists] *)
Definition path_exists (path : string) : M bool :=
  fun s => (Ret (bool_decide (is_Some (fs (world s) !! path))), s).

(** [open(path, "r")] followed by reading the whole file. *)
Definition read_file (path : string) : M content :=
  fun s =>
    match fs (world s) !! path with
    | None => (Raise (FileNotFoundError path), s)
    | Some Unreadable => (Raise IOError, s)
    | Some (Readable c) => (Ret c, s)
    end.

(** [open(path, "w")] followed by writing the whole file. *)
Definition write_file (path : string) (c : content) : M unit :=
  fun s => (Ret tt, {| self := self s; world := with_file path (Readable c) (world s) |}).

(** [asyncio.sleep] *)
Definition sleep : M unit :=
  fun s => (Ret tt, {| self := self s; world := with_nap (world s) |}).

(** [FileNotFoundError] is an [OSError], which is what [IOError] names. *)
Definition is_IOError (e : exn) : bool :=
  match e with IOError | FileNotFoundError _ => true | _ => false end.

(** ** Module constants and helpers of [remini.py] *)

Definition REMINI_API_BASE_URL : string := "https://a.android.api.remini.ai/v1/mobile".
Definition REMINI_ORACLE_API_BASE_URL : string := "https://api.remini.ai/v1/mobile/oracle".

(** The three [uuid.uuid4()] draws are inputs: the hex form of the first,
    the text form of the other two. *)
Definition _generate_device_ids (hex1 uuid2 uuid3 : string) : device_ids :=
  let android_id := String.substring 0 16 hex1 in
  {| android_id := android_id;
     aaid := uuid2;
     backup_persistent_id := android_id +:+ "_com.bigwinepot.nwdn.international";
     non_backup_persistent_id := uuid3 |}.

Definition _create_android_headers (ids : device_ids) : gmap string string :=
  list_to_map
    [ ("bsp-id", "com.bigwinepot.nwdn.international.android");
      ("build-number", "202514479");
      ("build-version", "3.7.1020");
      ("country", "US");
      ("device-manufacturer", "Samsung");
      ("device-model", "SM-G998B");
      ("device-type", "6.8");
      ("language", "en");
      ("locale", "en_US");
      ("os-version", "33");
      ("platform", "Android");
      ("timezone", "America/New_York");
      ("android-id", android_id ids);
      ("aaid", aaid ids);
      ("accept-encoding", "gzip");
      ("user-agent", "okhttp/4.12.0") ].

(** [Remini.__init__] *)
Definition __init__ (token_path : string) (hex1 uuid2 uuid3 : string) : Remini :=
  let ids := _generate_device_ids hex1 uuid2 uuid3 in
  {| token_path := token_path;
     identity_token := JNull;
     _device_ids := ids;
     _android_headers := _create_android_headers ids |}.

(** ** Session management *)

Definition _get_common_headers (c : Remini) (content_type : option string)
  : gmap string json :=
  let headers := JStr <$> _android_headers c in
  let headers :=
    if truthy (identity_token c)
    then <["identity-token" := identity_token c]> headers else headers in
  match content_type with
  | Some ct => if String.eqb ct "" then headers else <["content-type" := JStr ct]> headers
  | None => headers
  end.

Definition _load_identity_token : M unit :=
  let* c := get_self in
  let* present := path_exists (token_path c) in
  if present then
    try_except
      (let* f := read_file (token_path c) in
       let* data := json_of f in
       let* tok := py_get data "identity_token" JNull in
       set_identity_token tok)
      (fun e =>
         match e with
         | JSONDecodeError => Some (set_identity_token JNull)
         | _ => if is_IOError e then Some (set_identity_token JNull) else None
         end)
  else ret tt.

Definition _save_identity_token : M unit :=
  let* c := get_self in
  if truthy (identity_token c) then
    write_file (token_path c) (Json (JObj [("identity_token", identity_token c)]))
  else ret tt.

Definition _get_user_profile : M bool :=
  let* c := get_self in
  if negb (truthy (identity_token c)) then ret false
  else
    try_except
      (let* response :=
         http {| meth := GET; url := REMINI_API_BASE_URL +:+ "/users/@me";
                 headers := _get_common_headers c None; body := None |} in
       raise_for_status (fst response);;
       let* user_data := json_of (snd response) in
       let* _balance := py_get user_data "balance" (JStr "N/A") in
       ret true)
      (fun e => match e with HTTPStatusError _ => Some (ret false) | _ => None end).

Definition setup_headers (c : Remini) (w : World) : gmap string json :=
  let headers := _get_common_headers c None in
  <["app-set-id" := JStr "d44bd45a-a45d-4470-9674-7348a8e3fb71"]>
  (<["is-old-user" := JStr "true"]>
  (<["is-app-running-in-background" := JStr "false"]>
  (<["settings-response-version" := JStr "v2"]>
  (<["environment" := JStr "Production"]>
  (<["non-backup-persistent-id" := JStr (non_backup_persistent_id (_device_ids c))]>
  (<["backup-persistent-id" := JStr (backup_persistent_id (_device_ids c))]>
  (<["first-install-timestamp" := JStr (install_stamp w)]> headers))))))).

Definition _get_setup : M unit :=
  let* c := get_self in
  let* w := get_world in
  let headers := setup_headers c w in
  try_except
    (let* response :=
       http {| meth := GET; url := REMINI_ORACLE_API_BASE_URL +:+ "/setup";
               headers := headers; body := None |} in
     raise_for_status (fst response);;
     let* data := json_of (snd response) in
     let* settings := py_get data "settings" (JObj []) in
     let* identity := py_get settings "__identity__" (JObj []) in
     let* token := py_get identity "token" JNull in
     if negb (truthy token) then raise (ReminiError (TokenNotFound data))
     else set_identity_token token;; _save_identity_token)
    (fun e =>
       match e with
       | HTTPStatusError code => Some (raise (ReminiError (SetupHttpError code)))
       | _ => None
       end).

Definition _login : M unit :=
  _load_identity_token;;
  let* c := get_self in
  let* ok := if truthy (identity_token c) then _get_user_profile else ret false in
  if ok then ret tt
  else
    _get_setup;;
    let* ok' := _get_user_profile in
    if negb ok' then raise (ReminiError ActivationFailed) else ret tt.

(** ** Library calls the client relies on *)

(** [str(n)] for an [int]. *)
Definition str_of_int (z : Z) : string := NilZero.string_of_int (Z.to_int z).

(** What the standard library and Pillow compute from a path or from the
    bytes of a file; the client only passes these values on. *)
Class Platform : Type := {
  guess_type : string -> option string;   (* [mimetypes.guess_type(path)[0]] *)
  md5_base64 : content -> string;         (* base64 of the MD5 digest of the bytes *)
  getsize : file -> Z;                    (* [os.path.getsize], also [len] of the bytes *)
  image_size : file -> option (Z * Z);    (* Pillow's [img.size]; [None] without Pillow
                                             or when the file is not an image *)
  repr_container : json -> string         (* [str] of a [list] or a [dict] *)
}.

(** [str(v)], as an f-string formats [v]. *)
Definition py_str {platform : Platform} (v : json) : string :=
  match v with
  | JStr s => s
  | JNull => "None"
  | JBool true => "True"
  | JBool false => "False"
  | JNum z => str_of_int z
  | _ => repr_container v
  end.

(** *** [os.path] on POSIX paths *)

(** [p.rfind(ch)], counted from [i] for the first character of [p]. *)
Fixpoint rfind_from (ch : ascii) (p : string) (i : Z) : Z :=
  match p with
  | EmptyString => -1
  | String c r =>
      let j := rfind_from ch r (i + 1) in
      if (0 <=? j)%Z then j else if Ascii.eqb c ch then i else (-1)%Z
  end.

Definition rfind (ch : ascii) (p : string) : Z := rfind_from ch p 0.

(** [p[:n]] and [p[n:]] for [0 <= n]. *)
Fixpoint take_str (n : nat) (p : string) : string :=
  match n, p with
  | S n', String c r => String c (take_str n' r)
  | _, _ => EmptyString
  end.

Fixpoint drop_str (n : nat) (p : string) : string :=
  match n, p with
  | S n', String c r => drop_str n' r
  | _, _ => p
  end.

(** [posixpath.basename] *)
Definition basename (p : string) : string :=
  let i := (rfind "/" p + 1)%Z in
  drop_str (Z.to_nat i) p.

Fixpoint all_dots (p : string) : bool :=
  match p with
  | EmptyString => true
  | String c r => Ascii.eqb c "." && all_dots r
  end.

(** [posixpath.splitext]: the extension starts at the last dot of the last
    component, unless only dots come before it in that component. *)
Definition splitext (p : string) : string * string :=
  let sepIndex := rfind "/" p in
  let dotIndex := rfind "." p in
  if (sepIndex <? dotIndex)%Z then
    let filenameIndex := Z.to_nat (sepIndex + 1) in
    let lead := drop_str filenameIndex (take_str (Z.to_nat dotIndex) p) in
    if all_dots lead then (p, EmptyString)
    else (take_str (Z.to_nat dotIndex) p, drop_str (Z.to_nat dotIndex) p)
  else (p, EmptyString).

(** *** [datetime.strftime("%Y%m%d_%H%M%S")] *)

Definition digit (n : nat) : ascii := ascii_of_nat (48 + n mod 10).

Definition pad2 (n : nat) : string :=
  String (digit (n / 10)) (String (digit n) EmptyString).

Definition pad4 (n : nat) : string :=
  String (digit (n / 1000)) (String (digit (n / 100)) (pad2 n)).

Definition strftime (t : datetime) : string :=
  pad4 (year t) +:+ pad2 (month t) +:+ pad2 (day t) +:+ "_" +:+
  pad2 (hour t) +:+ pad2 (minute t) +:+ pad2 (second t).

(** ** Tasks *)

Section Client.
Context {platform : Platform}.

(** [d[k]] on the client's own header dict. *)
Definition user_agent (c : Remini) : M json :=
  match _android_headers c !! "user-agent" with
  | Some v => ret (JStr v)
  | None => raise KeyError
  end.

(** [client.put], [client.post] and [client.stream] want a [str] URL. *)
Definition url_of (v : json) : M string :=
  match v with
  | JStr s => ret s
  | _ => raise TypeError
  end.

(** [additional_headers] is copied and indexed by header name: a [dict]
    allows both, a [list] only copies, other values have no [copy]. *)
Definition _upload_file_to_gcs (upload_url : json) (file_path : string)
    (additional_headers : json) : M unit :=
  try_except
    (let* file_content := read_file file_path in
     let* c := get_self in
     match additional_headers with
     | JObj fields =>
         let gcs_headers := list_to_map fields in
         let gcs_headers :=
           <["Content-Length" := JStr (str_of_int (getsize (Readable file_content)))]>
             gcs_headers in
         let* agent := user_agent c in
         let gcs_headers := <["User-Agent" := agent]> gcs_headers in
         let* target := url_of upload_url in
         let* response :=
           http {| meth := PUT; url := target; headers := gcs_headers;
                   body := Some file_content |} in
         raise_for_status (fst response)
     | JArr _ => raise TypeError
     | _ => raise AttributeError
     end)
    (fun e =>
       match e with
       | HTTPStatusError code => Some (raise (ReminiError (GcsUploadFailed code)))
       | _ => None
       end).

Definition _calculate_md5_base64 (file_path : string) : M string :=
  let* bytes := read_file file_path in
  ret (md5_base64 bytes).

Definition _get_image_metadata (file_path : string) : M json :=
  let* w := get_world in
  match fs w !! file_path with
  | None => raise (FileNotFoundError file_path)
  | Some f =>
      let size := [("size", JNum (getsize f))] in
      match image_size f with
      | Some (width, height) =>
          ret (JObj (size ++ [("width", JNum width); ("height", JNum height)]))
      | None => ret (JObj size)
      end
  end.

(** [all([task_id, upload_url, upload_headers])] *)
Definition all_truthy (vs : list json) : bool := forallb truthy vs.

Definition _create_image_task (file_path : string) (feature_payload : json) : M json :=
  let mime_type :=
    match guess_type file_path with
    | Some t => if String.eqb t "" then "image/jpeg" else t
    | None => "image/jpeg"
    end in
  let* md5 := _calculate_md5_base64 file_path in
  let* metadata := _get_image_metadata file_path in
  let request_body :=
    JObj [ ("image_content_type", JStr mime_type);
           ("image_md5", JStr md5);
           ("feature", feature_payload);
           ("metadata", metadata);
           ("options", JObj [("high_quality_output", JBool false);
                             ("save_input", JBool true)]) ] in
  let* upload_info :=
    try_except
      (let* c := get_self in
       let headers := _get_common_headers c (Some "application/json; charset=UTF-8") in
       let* response :=
         http {| meth := POST; url := REMINI_API_BASE_URL +:+ "/tasks";
                 headers := headers; body := Some (Json request_body) |} in
       raise_for_status (fst response);;
       let* upload_info := json_of (snd response) in
       let* task_id := py_get upload_info "task_id" JNull in
       let* upload_url := py_get upload_info "upload_url" JNull in
       let* upload_headers := py_get upload_info "upload_headers" JNull in
       if negb (all_truthy [task_id; upload_url; upload_headers])
       then raise (ReminiError (MissingFields upload_info))
       else ret (task_id, upload_url, upload_headers))
      (fun e =>
         match e with
         | HTTPStatusError code => Some (raise (ReminiError (UploadUrlFailed code)))
         | _ => None
         end) in
  let '(task_id, upload_url, upload_headers) := upload_info in
  _upload_file_to_gcs upload_url file_path upload_headers;;
  ret task_id.

Definition _reprocess_image_task (base_task_id : json) (feature_payload : json) : M json :=
  try_except
    (let* c := get_self in
     let headers := _get_common_headers c (Some "application/json; charset=UTF-8") in
     let* response :=
       http {| meth := POST;
               url := REMINI_API_BASE_URL +:+ "/tasks/" +:+ py_str base_task_id +:+ "/reprocess";
               headers := headers;
               body := Some (Json (JObj [("feature", feature_payload)])) |} in
     raise_for_status (fst response);;
     let* data := json_of (snd response) in
     let* new_task_id := py_get data "task_id" JNull in
     if negb (truthy new_task_id) then raise (ReminiError (NoNewTaskId data))
     else ret new_task_id)
    (fun e =>
       match e with
       | HTTPStatusError code => Some (raise (ReminiError (ReprocessFailed code)))
       | _ => None
       end).

Definition _ping_for_processing (task_id : json) : M unit :=
  try_except
    (let* c := get_self in
     let headers := <["content-length" := JStr "0"]> (_get_common_headers c None) in
     let* response :=
       http {| meth := POST;
               url := REMINI_API_BASE_URL +:+ "/tasks/" +:+ py_str task_id +:+ "/process";
               headers := headers; body := None |} in
     raise_for_status (fst response))
    (fun e =>
       match e with
       | HTTPStatusError code => Some (raise (ReminiError (PingFailed code)))
       | _ => None
       end).

(** ** Polling *)

(** The first output's URL of a completed task, when there is one:
    [outputs and isinstance(outputs, list) and outputs[0].get("url")]. *)
Definition output_url (data : json) : M json :=
  let* result := py_get data "result" (JObj []) in
  let* outputs := py_get result "outputs" JNull in
  match outputs with
  | JArr (first :: _) =>
      let* u := py_get first "url" JNull in
      if truthy u then ret u else ret JNull
  | _ => ret JNull
  end.

(** What one response means for the loop: [None] is [continue] (or falling
    off the end of the body), [Some v] is [return v]. *)
Definition poll_verdict (response : Z * content) : M (option json) :=
  let '(code, payload) := response in
  let* data :=
    try_except
      (if (code =? 404)%Z then ret None
       else
         raise_for_status code;;
         let* data := json_of payload in
         ret (Some data))
      (fun e =>
         match e with
         | HTTPStatusError code => Some (raise (ReminiError (PollingFailed code)))
         | _ => None
         end) in
  match data with
  | None => ret None
  | Some data =>
      let* status := py_get data "status" JNull in
      match status with
      | JStr st =>
          if String.eqb st "completed" then
            let* u := output_url data in ret (Some u)
          else if String.eqb st "failed" || String.eqb st "error" then
            let* errors := py_get data "errors" JNull in
            raise (ReminiError (TaskFailed errors))
          else ret None
      | _ => ret None
      end
  end.

(** The body of [while True]. *)
Definition poll_iteration (task_id : json) : M (option json) :=
  sleep;;
  let* c := get_self in
  let* response :=
    http {| meth := GET; url := REMINI_API_BASE_URL +:+ "/tasks/" +:+ py_str task_id;
            headers := _get_common_headers c None; body := None |} in
  poll_verdict response.

(** [fuel] bounds the number of iterations looked at. *)
Fixpoint _poll_status_http (fuel : nat) (task_id : json) : M json :=
  match fuel with
  | O => fun s => (Spin, s)
  | S fuel' =>
      let* v := poll_iteration task_id in
      match v with
      | Some result => ret result
      | None => _poll_status_http fuel' task_id
      end
  end.

(** ** Download and the two workflows *)

(** The response is streamed; on an error status its body has not been read
    when the handler formats [e.response.text], and [httpx] raises
    [ResponseNotRead] there, before the [ReminiError] is built. *)
Definition _download_file (url : json) (output_path : string) : M unit :=
  try_except
    (let* c := get_self in
     let* agent := user_agent c in
     let* target := url_of url in
     let* response :=
       http {| meth := GET; url := target; headers := {[ "user-agent" := agent ]};
               body := None |} in
     raise_for_status (fst response);;
     write_file output_path (snd response))
    (fun e =>
       match e with
       | HTTPStatusError code => Some (raise ResponseNotRead)
       | _ => None
       end).

(** The destination when the caller gives none. *)
Definition default_output_path (image_path : string) (now : datetime) : string :=
  let '(name, ext) := splitext (basename image_path) in
  let timestamp := strftime now in
  name +:+ "_remini_" +:+ timestamp +:+ ext.

(** [not output_path] *)
Definition unspecified (output_path : option string) : bool :=
  match output_path with
  | None => true
  | Some p => String.eqb p ""
  end.

Definition _process_common (image_path : string) (output_path : option string)
    (verbose : bool) (final_url : json) : M unit :=
  if negb (truthy final_url) then raise (ReminiError NoFinalUrl)
  else
    let* w := get_world in
    let output_path :=
      if unspecified output_path then default_output_path image_path (clock w)
      else default "" output_path in
    _download_file final_url output_path.

Definition enhance_feature : json :=
  JObj [("type", JStr "enhance"); ("models", JArr [])].

Definition style_feature (style : string) : json :=
  JObj [("type", JStr "stylization-v2"); ("pipelines", JArr [JObj [("id", JStr style)]])].

Definition process (fuel : nat) (image_path : string) (output_path : option string)
    (verbose : bool) : M unit :=
  let* present := path_exists image_path in
  if negb present then raise (FileNotFoundError image_path)
  else
    _login;;
    let feature := enhance_feature in
    let* task_id := _create_image_task image_path feature in
    _ping_for_processing task_id;;
    let* final_url := _poll_status_http fuel task_id in
    _process_common image_path output_path verbose final_url.

Definition stylize (fuel : nat) (image_path : string) (style : string)
    (output_path : option string) (verbose : bool) : M unit :=
  let* present := path_exists image_path in
  if negb present then raise (FileNotFoundError image_path)
  else
    _login;;
    let base_feature := enhance_feature in
    let* base_task_id := _create_image_task image_path base_feature in
    _ping_for_processing base_task_id;;
    let* base_task_url := _poll_status_http fuel base_task_id in
    if negb (truthy base_task_url) then raise (ReminiError BaseTaskIncomplete)
    else
      let* reprocess_task_id := _reprocess_image_task base_task_id (style_feature style) in
      let* final_url := _poll_status_http fuel reprocess_task_id in
      _process_common image_path output_path verbose final_url.

End Client.

(** ** Concrete runs *)

(** A platform for the examples: every file is a 42-byte PNG that Pillow
    cannot open. *)
Definition example_platform : Platform :=
  {| guess_type := fun _ => Some "image/png";
     md5_base64 := fun _ => "1B2M2Y8AsgTpgAmY7PhCfg==";
     getsize := fun _ => 42%Z;
     image_size := fun _ => None;
     repr_container := fun _ => "[]" |}.

Definition example_client : Remini :=
  __init__ "/tmp/remini_identity_token.json"
    "0123456789abcdef0123456789abcdef"
    "11111111-2222-4333-8444-555555555555"
    "66666666-7777-4888-9999-aaaaaaaaaaaa".

Definition example_clock : datetime :=
  {| year := 2024; month := 1; day := 2; hour := 3; minute := 4; second := 5 |}.

Definition example_world (files : gmap string file) (service : nat -> reply) : World :=
  {| fs := files; net := service; sent := []; naps := 0;
     install_stamp := "1704164645E9"; clock := example_clock |}.

Definition token_file (v : json) : file :=
  Readable (Json (JObj [("identity_token", v)])).

Definition unreachable_service (n : nat) : reply := TransportError.

(** *** States and requests used in the statements *)

(** The state after [self.identity_token = v]. *)
Definition set_token (s : State) (v : json) : State :=
  {| self := with_token (self s) v; world := world s |}.

(** The GET that fetches the artifact. *)
Definition download_request (target agent : string) : request :=
  {| meth := GET; url := target; headers := {[ "user-agent" := JStr agent ]};
     body := None |}.

(** A computation is steady when it keeps the client object and the
    service as they are and only adds requests to the log. *)
Definition steady {A : Type} (m : M A) : Prop :=
  forall (s s' : State) (o : outcome A),
    m s = (o, s') ->
    self s' = self s
    /\ net (world s') = net (world s)
    /\ exists rs, sent (world s') = sent (world s) ++ rs.

Create HintDb steady.

(** *** The token cache, as the specification words it *)

(** The cache file is absent, unreadable, or holds text that is not JSON. *)
Definition cache_unusable (f : option file) : Prop :=
  f = None \/ f = Some Unreadable \/ exists text, f = Some (Readable (Garbled text)).

(** The load step returns and the client holds no token. *)
Definition load_leaves_no_token (s : State) : Prop :=
  exists s', _load_identity_token s = (Ret tt, s') /\ identity_token (self s') = JNull.

(** *** The default destination, as the specification words it *)

Definition spec_default_output_path (image_path : string) (now : datetime) : string :=
  let '(name, ext) := splitext (basename image_path) in
  let timestamp := strftime now in
  name +:+ "_enhanced_" +:+ timestamp +:+ ext.

(** A path with no separator names a file of the current directory. *)
Fixpoint has_slash (p : string) : bool :=
  match p with
  | EmptyString => false
  | String c r => Ascii.eqb c "/" || has_slash r
  end.

Definition download_service (n : nat) : reply := Response 200 (Binary "JFIF").

(** *** Requests of the session manager *)

Definition profile_request (c : Remini) : request :=
  {| meth := GET; url := REMINI_API_BASE_URL +:+ "/users/@me";
     headers := _get_common_headers c None; body := None |}.

Definition setup_request (c : Remini) (w : World) : request :=
  {| meth := GET; url := REMINI_ORACLE_API_BASE_URL +:+ "/setup";
     headers := setup_headers c w; body := None |}.



(** The request carries [tok] as its session token. *)
Definition carries_token (r : request) (tok : json) : Prop :=
  headers r !! "identity-token" = Some tok.

(** [data.get("settings", {}).get("__identity__", {}).get("token")], where
    [None] stands for the [AttributeError] of a [.get] on a value that is
    not a [dict]. *)
Definition setup_token (data : json) : option json :=
  settings ← dict_get data "settings" (JObj []);
  identity ← dict_get settings "__identity__" (JObj []);
  dict_get identity "token" JNull.

(** The state after request [r] has been issued. *)
Definition logged (r : request) (s : State) : State :=
  {| self := self s; world := log_request r (world s) |}.

(** The requests issued between two states of a run. *)
Definition requests_between (s s' : State) : list request :=
  drop (length (sent (world s))) (sent (world s')).

(** The token a bootstrap answer mints: the value at
    [settings.__identity__.token] of a 2xx JSON answer, when it passes the
    truth test. *)
Definition minted_token (r : reply) : option json :=
  match r with
  | Response code (Json data) =>
      if is_success code then
        match setup_token data with
        | Some token => if truthy token then Some token else None
        | None => None
        end
      else None
  | _ => None
  end.

(** The cached token is missing or fails the probe; [s2] is the state in
    which the bootstrap starts. *)
Definition needs_bootstrap (s s2 : State) : Prop :=
  exists s1,
    _load_identity_token s = (Ret tt, s1)
    /\ ((truthy (identity_token (self s1)) = false /\ s2 = s1)
        \/ (truthy (identity_token (self s1)) = true
            /\ _get_user_profile s1 = (Ret false, s2))).

(** *** The session claims, as the specification words them *)



(** *** Services for the examples *)

Definition minting_answer (t : string) : reply :=
  Response 200
    (Json (JObj [("settings", JObj [("__identity__", JObj [("token", JStr t)])])])).

(** Rejects the first probe, mints ["fresh"], accepts everything after. *)
Definition renewing_service (n : nat) : reply :=
  match n with
  | 0 => Response 401 (Garbled "Unauthorized")
  | 1 => minting_answer "fresh"
  | _ => Response 200 (Json (JObj [("balance", JNum 3)]))
  end.


Definition failing_service (n : nat) : reply := Response 503 (Garbled "Service Unavailable").

Definition accepting_service (n : nat) : reply :=
  Response 200 (Json (JObj [("balance", JNum 3)])).

Definition cached (t : string) : gmap string file :=
  {[ "/tmp/remini_identity_token.json" := token_file (JStr t) ]}.

(** *** The task-creation request *)

(** The metadata dict for a file that exists. *)
Definition metadata_of {platform : Platform} (f : file) : json :=
  let size := [("size", JNum (getsize f))] in
  match image_size f with
  | Some (width, height) => JObj (size ++ [("width", JNum width); ("height", JNum height)])
  | None => JObj size
  end.

Definition mime_type_of {platform : Platform} (file_path : string) : string :=
  match guess_type file_path with
  | Some t => if String.eqb t "" then "image/jpeg" else t
  | None => "image/jpeg"
  end.

Definition create_request {platform : Platform} (c : Remini) (file_path : string)
    (feature_payload : json) (f : file) (bytes : content) : request :=
  {| meth := POST; url := REMINI_API_BASE_URL +:+ "/tasks";
     headers := _get_common_headers c (Some "application/json; charset=UTF-8");
     body := Some (Json (JObj
       [ ("image_content_type", JStr (mime_type_of file_path));
         ("image_md5", JStr (md5_base64 bytes));
         ("feature", feature_payload);
         ("metadata", metadata_of f);
         ("options", JObj [("high_quality_output", JBool false);
                           ("save_input", JBool true)]) ])) |}.

(** The three fields [_create_image_task] reads from the creation answer. *)
Definition upload_fields (info : json) : list json :=
  match info with
  | JObj fields =>
      [ default JNull (assoc "task_id" fields);
        default JNull (assoc "upload_url" fields);
        default JNull (assoc "upload_headers" fields) ]
  | _ => []
  end.

(** Answers the creation request without an upload URL. *)
Definition incomplete_service (n : nat) : reply :=
  Response 200 (Json (JObj [("task_id", JStr "T1");
                            ("upload_headers", JObj [("x-goog-meta", JStr "1")])])).

Definition photo : gmap string file :=
  {[ "/home/u/photo.jpg" := Readable (Binary "JFIF") ]}.

(** *** Polling *)

Definition poll_request {platform : Platform} (c : Remini) (task_id : json) : request :=
  {| meth := GET; url := REMINI_API_BASE_URL +:+ "/tasks/" +:+ py_str task_id;
     headers := _get_common_headers c None; body := None |}.

(** The state after one more sleep. *)
Definition napped (s : State) : State :=
  {| self := self s; world := with_nap (world s) |}.

(** The answer is a 2xx JSON document whose [status] field is [st]. *)
Definition reports (r : reply) (st : json) : Prop :=
  exists code data,
    r = Response code (Json data)
    /\ is_success code = true
    /\ dict_get data "status" JNull = Some st.

(** The three statuses that end the loop. *)
Definition terminal (st : string) : bool :=
  String.eqb st "completed" || String.eqb st "failed" || String.eqb st "error".

(** Not found twice, then in progress, then completed with an output. *)
Definition slow_service (n : nat) : reply :=
  match n with
  | 0 | 1 => Response 404 (Garbled "Not Found")
  | 2 => Response 200 (Json (JObj [("status", JStr "processing")]))
  | _ => Response 200
           (Json (JObj [("status", JStr "completed");
                        ("result",
                         JObj [("outputs", JArr [JObj [("url", JStr "https://x/base.jpg")]])])]))
  end.

(** *** Reprocessing *)

Definition reprocess_request {platform : Platform} (c : Remini) (base_task_id : json)
    (feature_payload : json) : request :=
  {| meth := POST;
     url := REMINI_API_BASE_URL +:+ "/tasks/" +:+ py_str base_task_id +:+ "/reprocess";
     headers := _get_common_headers c (Some "application/json; charset=UTF-8");
     body := Some (Json (JObj [("feature", feature_payload)])) |}.

Definition completed_answer (u : json) : reply :=
  Response 200
    (Json (JObj [("status", JStr "completed");
                 ("result", JObj [("outputs", JArr [JObj [("url", u)]])])])).

(** Accepts the cached token, creates task [T1], takes the upload and the
    ping, reports [T1] completed with an output, creates [T2] on reprocess,
    reports it completed, and serves the artifact. *)
Definition stylizing_service (n : nat) : reply :=
  match n with
  | 0 => Response 200 (Json (JObj [("balance", JNum 3)]))
  | 1 => Response 200
           (Json (JObj [("task_id", JStr "T1");
                        ("upload_url", JStr "https://storage/upload/T1");
                        ("upload_headers", JObj [("x-goog-meta", JStr "1")])]))
  | 2 => Response 200 (Garbled "")
  | 3 => Response 200 (Garbled "")
  | 4 => completed_answer (JStr "https://x/base.jpg")
  | 5 => Response 200 (Json (JObj [("task_id", JStr "T2")]))
  | 6 => completed_answer (JStr "https://x/toon.jpg")
  | _ => Response 200 (Binary "JFIF")
  end.

(** The same service, but the base task completes without an output. *)
Definition barren_service (n : nat) : reply :=
  match n with
  | 4 => Response 200 (Json (JObj [("status", JStr "completed")]))
  | _ => stylizing_service n
  end.

Definition photo_and_token : gmap string file :=
  {[ "/home/u/photo.jpg" := Readable (Binary "JFIF");
     "/tmp/remini_identity_token.json" := token_file (JStr "eyJhbGciOi") ]}.

(** *** Relations between the states of a run *)

(** [m] only takes a state to states related to it by [R]. *)
Definition respects (R : relation State) {A : Type} (m : M A) : Prop :=
  forall (s s' : State) (o : outcome A), m s = (o, s') -> R s s'.

(** The client object, the files, the service and the clock are as before. *)
Definition undisturbed (s s' : State) : Prop :=
  self s' = self s
  /\ fs (world s') = fs (world s)
  /\ net (world s') = net (world s)
  /\ clock (world s') = clock (world s).

(** The service and the clock are as before, the client uses the same token
    path, and the log has only grown. *)
Definition continues (s s' : State) : Prop :=
  token_path (self s') = token_path (self s)
  /\ net (world s') = net (world s)
  /\ clock (world s') = clock (world s)
  /\ exists rs, sent (world s') = sent (world s) ++ rs.

Create HintDb respects.

(** *** More requests *)

Definition ping_request {platform : Platform} (c : Remini) (task_id : json) : request :=
  {| meth := POST;
     url := REMINI_API_BASE_URL +:+ "/tasks/" +:+ py_str task_id +:+ "/process";
     headers := <["content-length" := JStr "0"]> (_get_common_headers c None);
     body := None |}.

Definition upload_request {platform : Platform} (target : string)
    (fields : list (string * json)) (agent : string) (bytes : content) : request :=
  {| meth := PUT; url := target;
     headers := <["User-Agent" := JStr agent]>
                  (<["Content-Length" := JStr (str_of_int (getsize (Readable bytes)))]>
                     (list_to_map fields));
     body := Some bytes |}.

(** The state after [k] iterations of the polling loop that all went round:
    [k] sleeps and [k] copies of the same status request. *)
Definition polled {platform : Platform} (k : nat) (task_id : json) (s : State) : State :=
  {| self := self s;
     world := {| fs := fs (world s); net := net (world s);
                 sent := sent (world s) ++ replicate k (poll_request (self s) task_id);
                 naps := k + naps (world s);
                 install_stamp := install_stamp (world s); clock := clock (world s) |} |}.

(** An answer on which the polling loop goes round: a 404, or a 2xx JSON
    document whose status is a string other than the three terminal ones. *)
Definition pending (r : reply) : Prop :=
  exists code payload,
    r = Response code payload
    /\ (code = 404%Z
        \/ exists data st,
             payload = Json data /\ is_success code = true
             /\ dict_get data "status" JNull = Some (JStr st) /\ terminal st = false).

(** *** The destination of a workflow *)

(** Where [_process_common] writes: the caller's path, or the default one
    for the time of the call. *)
Definition destination (image_path : string) (output_path : option string)
    (now : datetime) : string :=
  if unspecified output_path then default_output_path image_path now
  else default "" output_path.

(** File [q] is as before unless it is the token file or the destination;
    the token path and the clock are as before. *)
Definition kept (q : string) (dest_of : datetime -> string) (s s' : State) : Prop :=
  token_path (self s') = token_path (self s)
  /\ clock (world s') = clock (world s)
  /\ (q <> token_path (self s) -> q <> dest_of (clock (world s)) ->
      fs (world s') !! q = fs (world s) !! q).

(** ** Properties *)

Lemma bind_run {A B} (m : M A) (k : A -> M B) (s : State) :
  bind m k s =
  match m s with
  | (Ret a, s') => k a s'
  | (Raise e, s') => (Raise e, s')
  | (Spin, s') => (Spin, s')
  end.
Proof. reflexivity. Qed.

Lemma path_exists_run (path : string) (s : State) :
  path_exists path s = (Ret (bool_decide (is_Some (fs (world s) !! path))), s).
Proof. reflexivity. Qed.

Lemma path_exists_absent (path : string) (s : State) :
  fs (world s) !! path = None -> path_exists path s = (Ret false, s).
Proof.
  intros Hnone. rewrite path_exists_run, Hnone.
  rewrite bool_decide_eq_false_2; [reflexivity | apply is_Some_None].
Qed.

Lemma path_exists_present (path : string) (f : file) (s : State) :
  fs (world s) !! path = Some f -> path_exists path s = (Ret true, s).
Proof.
  intros Hsome. rewrite path_exists_run, Hsome.
  rewrite bool_decide_eq_true_2; [reflexivity | eauto].
Qed.

(** C10: when the input path names no file, [process] and [stylize] raise
    [FileNotFoundError] at once: the client, the files and the request log
    are exactly as they were, so nothing was sent and nothing was written. *)
Theorem missing_input_fails_first {platform : Platform} (fuel : nat) (image_path style : string)
    (output_path : option string) (verbose : bool) (s : State) :
  fs (world s) !! image_path = None ->
  process fuel image_path output_path verbose s = (Raise (FileNotFoundError image_path), s)
  /\ stylize fuel image_path style output_path verbose s
     = (Raise (FileNotFoundError image_path), s).
Proof.
  intros Hnone. unfold process, stylize.
  rewrite !bind_run, (path_exists_absent _ _ Hnone). split; reflexivity.
Qed.

Lemma missing_input_fails_first_witness :
  let s := {| self := example_client;
              world := example_world ∅ unreachable_service |} in
  process (platform := example_platform) 3 "/home/u/photo.jpg" None true s
    = (Raise (FileNotFoundError "/home/u/photo.jpg"), s)
  /\ stylize (platform := example_platform) 3 "/home/u/photo.jpg" "toon" None true s
     = (Raise (FileNotFoundError "/home/u/photo.jpg"), s).
Proof.
  intros s.
  apply (missing_input_fails_first (platform := example_platform) 3 "/home/u/photo.jpg" "toon"
           None true s).
  reflexivity.
Defined.

(** *** The token store *)

Lemma load_run (s : State) :
  _load_identity_token s =
  match fs (world s) !! token_path (self s) with
  | None => (Ret tt, s)
  | Some Unreadable => (Ret tt, set_token s JNull)
  | Some (Readable (Garbled _)) => (Ret tt, set_token s JNull)
  | Some (Readable (Binary _)) => (Raise UnicodeDecodeError, s)
  | Some (Readable (Json v)) =>
      match dict_get v "identity_token" JNull with
      | Some tok => (Ret tt, set_token s tok)
      | None => (Raise AttributeError, s)
      end
  end.
Proof.
  unfold _load_identity_token. rewrite bind_run. cbn [get_self].
  rewrite bind_run.
  destruct (fs (world s) !! token_path (self s)) as [f|] eqn:Hf.
  - rewrite (path_exists_present _ f _ Hf).
    unfold try_except, read_file. rewrite bind_run, Hf.
    destruct f as [|[v|text|bytes]]; try reflexivity.
    unfold bind, json_of, ret, py_get.
    destruct (dict_get v "identity_token" JNull); reflexivity.
  - rewrite (path_exists_absent _ _ Hf). reflexivity.
Qed.


Lemma truthy_nonempty (t : string) : t <> "" -> truthy (JStr t) = true.
Proof.
  intros Hne. cbn. destruct (String.eqb_spec t ""); [contradiction | reflexivity].
Qed.




(** C9, as stated, fails: a client that already holds a token (from an
    earlier call on the same object) keeps it when the cache file is absent. *)
Lemma absent_cache_keeps_token :
  ~ (forall s : State,
       cache_unusable (fs (world s) !! token_path (self s)) -> load_leaves_no_token s).
Proof.
  intros Hclaim.
  destruct (Hclaim {| self := with_token example_client (JStr "eyJhbGciOi");
                      world := example_world ∅ unreachable_service |})
    as [s' [Hrun Htok]].
  - left. reflexivity.
  - rewrite load_run in Hrun. cbn in Hrun.
    injection Hrun as <-. discriminate Htok.
Qed.

(** C9, amended: on an absent, unreadable or malformed cache file the load
    step returns without raising and leaves the files alone.  An unreadable
    or malformed file clears the token; an absent file leaves the client as
    it was, so a client that held no token (a new one) still holds none. *)
Theorem load_tolerates_unusable_cache (s : State) :
  cache_unusable (fs (world s) !! token_path (self s)) ->
  exists s',
    _load_identity_token s = (Ret tt, s')
    /\ world s' = world s
    /\ (fs (world s) !! token_path (self s) = None -> s' = s)
    /\ (fs (world s) !! token_path (self s) <> None -> identity_token (self s') = JNull)
    /\ (identity_token (self s) = JNull -> identity_token (self s') = JNull).
Proof.
  intros Hcache. rewrite load_run.
  destruct Hcache as [Hf | [Hf | [text Hf]]]; rewrite Hf.
  - exists s. repeat split; try reflexivity; intros; try assumption. contradiction.
  - exists (set_token s JNull). repeat split; try reflexivity; discriminate.
  - exists (set_token s JNull). repeat split; try reflexivity; discriminate.
Qed.

Lemma load_tolerates_unusable_cache_witness :
  let s := {| self := example_client;
              world := example_world {[ "/tmp/remini_identity_token.json"
                                        := Readable (Garbled "{identity_tok") ]}
                         unreachable_service |} in
  exists s',
    _load_identity_token s = (Ret tt, s')
    /\ world s' = world s
    /\ (fs (world s) !! token_path (self s) = None -> s' = s)
    /\ (fs (world s) !! token_path (self s) <> None -> identity_token (self s') = JNull)
    /\ (identity_token (self s) = JNull -> identity_token (self s') = JNull).
Proof.
  intros s. apply (load_tolerates_unusable_cache s).
  right. right. exists "{identity_tok". reflexivity.
Defined.

(** Two damaged caches the load step does not absorb: JSON that is not an
    object, and bytes that are not text. *)
Example load_raises_on_other_damage :
  let at_cache (f : file) :=
    {| self := example_client;
       world := example_world {[ "/tmp/remini_identity_token.json" := f ]}
                  unreachable_service |} in
  fst (_load_identity_token (at_cache (Readable (Json (JArr []))))) = Raise AttributeError
  /\ fst (_load_identity_token (at_cache (Readable (Binary "JFIF")))) = Raise UnicodeDecodeError.
Proof. vm_compute. split; reflexivity. Qed.

(** *** Paths *)

Lemma append_cons (c : ascii) (a b : string) : String c a +:+ b = String c (a +:+ b).
Proof. reflexivity. Qed.

Lemma has_slash_app (a b : string) :
  has_slash (a +:+ b) = has_slash a || has_slash b.
Proof.
  induction a as [|c a IH]; [reflexivity |].
  rewrite append_cons. cbn [has_slash]. rewrite IH. apply orb_assoc.
Qed.

Lemma take_drop_str (n : nat) (p : string) : take_str n p +:+ drop_str n p = p.
Proof.
  revert p. induction n as [|n IH]; intros [|c r]; try reflexivity.
  cbn [take_str drop_str]. rewrite append_cons. f_equal. apply IH.
Qed.

(** [rfind_from] either finds nothing, and then there is no separator, or
    returns the position after which no separator is left. *)
Lemma rfind_from_slash (p : string) (i : Z) :
  (0 <= i)%Z ->
  (rfind_from "/" p i = -1 /\ has_slash p = false)%Z
  \/ ((i <= rfind_from "/" p i)%Z
      /\ has_slash (drop_str (Z.to_nat (rfind_from "/" p i - i + 1)) p) = false).
Proof.
  revert i. induction p as [|c r IH]; intros i Hi.
  - left. split; reflexivity.
  - cbn [rfind_from has_slash].
    destruct (IH (i + 1)%Z ltac:(lia)) as [[Hnone Hr] | [Hle Hr]].
    + rewrite Hnone. cbn [Z.leb Z.compare].
      destruct (Ascii.eqb c "/") eqn:Hc.
      * right. split; [lia |].
        replace (Z.to_nat (i - i + 1)) with 1%nat by lia. exact Hr.
      * left. split; [reflexivity | exact Hr].
    + destruct (Z.leb_spec 0 (rfind_from "/" r (i + 1))) as [_ | Hneg]; [| lia].
      right. split; [lia |].
      replace (Z.to_nat (rfind_from "/" r (i + 1) - i + 1))
        with (S (Z.to_nat (rfind_from "/" r (i + 1) - (i + 1) + 1))) by lia.
      exact Hr.
Qed.

Lemma basename_no_slash (p : string) : has_slash (basename p) = false.
Proof.
  unfold basename, rfind.
  destruct (rfind_from_slash p 0 ltac:(lia)) as [[Hnone Hp] | [_ Hp]].
  - rewrite Hnone. exact Hp.
  - replace (rfind_from "/" p 0 + 1)%Z with (rfind_from "/" p 0 - 0 + 1)%Z by lia.
    exact Hp.
Qed.

Lemma append_empty (p : string) : p +:+ "" = p.
Proof.
  induction p as [|c r IH]; [reflexivity |].
  rewrite append_cons. f_equal. exact IH.
Qed.

Lemma splitext_join (p : string) : fst (splitext p) +:+ snd (splitext p) = p.
Proof.
  unfold splitext.
  destruct (rfind "/" p <? rfind "." p)%Z.
  - destruct (all_dots _); cbn [fst snd].
    + apply append_empty.
    + apply take_drop_str.
  - apply append_empty.
Qed.

Lemma digit_not_slash (n : nat) : Ascii.eqb (digit n) "/" = false.
Proof.
  unfold digit.
  pose proof (Nat.mod_upper_bound n 10 ltac:(lia)) as Hlt.
  destruct (n mod 10) as [|[|[|[|[|[|[|[|[|[|k]]]]]]]]]]; try reflexivity; lia.
Qed.

Lemma strftime_no_slash (t : datetime) : has_slash (strftime t) = false.
Proof.
  unfold strftime, pad4, pad2. rewrite !has_slash_app. cbn [has_slash].
  rewrite !digit_not_slash. reflexivity.
Qed.

Lemma default_output_path_no_slash (image_path : string) (now : datetime) :
  has_slash (default_output_path image_path now) = false.
Proof.
  unfold default_output_path.
  pose proof (splitext_join (basename image_path)) as Hjoin.
  pose proof (basename_no_slash image_path) as Hbase.
  destruct (splitext (basename image_path)) as [name ext]. cbn [fst snd] in Hjoin.
  rewrite <- Hjoin, has_slash_app in Hbase. apply orb_false_elim in Hbase as [Hn He].
  rewrite !has_slash_app, Hn, He, strftime_no_slash. reflexivity.
Qed.

(** *** Requests *)

Lemma http_run (r : request) (s : State) :
  sendable (headers r) = true ->
  http r s =
  match net (world s) (length (sent (world s))) with
  | TransportError =>
      (Raise RequestError, {| self := self s; world := log_request r (world s) |})
  | Response code payload =>
      (Ret (code, payload), {| self := self s; world := log_request r (world s) |})
  end.
Proof. intros Hok. unfold http. rewrite Hok. reflexivity. Qed.

Lemma http_blocked (r : request) (s : State) :
  sendable (headers r) = false -> http r s = (Raise TypeError, s).
Proof. intros Hno. unfold http. rewrite Hno. reflexivity. Qed.

Lemma sendable_singleton (k v : string) :
  sendable ({[ k := JStr v ]} : gmap string json) = true.
Proof.
  unfold sendable. apply bool_decide_eq_true_2.
  apply map_Forall_singleton. reflexivity.
Qed.

Lemma sendable_insert_str (k v : string) (h : gmap string json) :
  sendable h = true -> sendable (<[k := JStr v]> h) = true.
Proof.
  unfold sendable. rewrite !bool_decide_eq_true. intros Hh.
  apply map_Forall_insert_2; [reflexivity | exact Hh].
Qed.

Lemma sendable_strings (h : gmap string string) : sendable (JStr <$> h) = true.
Proof.
  unfold sendable. apply bool_decide_eq_true_2.
  intros k v Hkv. rewrite lookup_fmap in Hkv.
  destruct (h !! k); inversion Hkv. reflexivity.
Qed.

(** *** Download and the default destination *)

Lemma download_run (u : json) (path : string) (s : State) :
  _download_file u path s =
  match _android_headers (self s) !! "user-agent" with
  | None => (Raise KeyError, s)
  | Some agent =>
      match u with
      | JStr target =>
          let w := log_request (download_request target agent) (world s) in
          match net (world s) (length (sent (world s))) with
          | TransportError => (Raise RequestError, {| self := self s; world := w |})
          | Response code payload =>
              if is_success code
              then (Ret tt, {| self := self s;
                               world := with_file path (Readable payload) w |})
              else (Raise ResponseNotRead, {| self := self s; world := w |})
          end
      | _ => (Raise TypeError, s)
      end
  end.
Proof.
  unfold _download_file, try_except. rewrite bind_run. cbn [get_self].
  rewrite bind_run. unfold user_agent.
  destruct (_android_headers (self s) !! "user-agent") as [agent|]; [| reflexivity].
  cbn [ret]. rewrite bind_run.
  destruct u as [| | |target| |]; try reflexivity.
  cbn [url_of ret]. rewrite bind_run, http_run by apply sendable_singleton.
  fold (download_request target agent).
  destruct (net (world s) (length (sent (world s)))) as [|code payload]; [reflexivity |].
  rewrite bind_run. unfold raise_for_status. cbn [fst snd].
  destruct (is_success code); reflexivity.
Qed.

Lemma download_writes (u : json) (path : string) (s s' : State) :
  _download_file u path s = (Ret tt, s') ->
  exists payload, fs (world s') = <[path := Readable payload]> (fs (world s)).
Proof.
  rewrite download_run.
  destruct (_android_headers (self s) !! "user-agent"); [| discriminate].
  destruct u; try discriminate.
  destruct (net (world s) (length (sent (world s)))) as [|code payload]; [discriminate |].
  cbv zeta. destruct (is_success code); [| discriminate].
  intros [= <-]. exists payload. reflexivity.
Qed.

(** C8, as stated, fails: the derived name carries the infix [_remini_],
    not [_enhanced_].  An enhancement of [photos/cat.jpg] is downloaded to
    [cat_remini_20240102_030405.jpg]; no file of the name the claim gives
    is written. *)
Lemma default_destination_is_not_enhanced :
  let s := {| self := example_client;
              world := example_world ∅ download_service |} in
  let run := _process_common "photos/cat.jpg" None true (JStr "https://x/out.jpg") s in
  fst run = Ret tt
  /\ spec_default_output_path "photos/cat.jpg" example_clock
     = "cat_enhanced_20240102_030405.jpg"
  /\ fs (world (snd run)) !! "cat_enhanced_20240102_030405.jpg" = None
  /\ fs (world (snd run)) !! "cat_remini_20240102_030405.jpg"
     = Some (Readable (Binary "JFIF")).
Proof. vm_compute. repeat split; reflexivity. Qed.

(** C8, amended: when the caller gives no output path, the destination is
    [{name}_remini_{timestamp}{ext}], where [name] and [ext] split the base
    name of the input path and the timestamp is the local time as
    [%Y%m%d_%H%M%S].  It has no directory part, so it lies in the current
    working directory, and a workflow that returns has written it. *)
Theorem default_destination (image_path : string) (output_path : option string)
    (verbose : bool) (final_url : json) (s : State) :
  unspecified output_path = true ->
  let name := fst (splitext (basename image_path)) in
  let ext := snd (splitext (basename image_path)) in
  let dest := name +:+ "_remini_" +:+ strftime (clock (world s)) +:+ ext in
  _process_common image_path output_path verbose final_url s
  = (if truthy final_url then _download_file final_url dest s
     else (Raise (ReminiError NoFinalUrl), s))
  /\ name +:+ ext = basename image_path
  /\ has_slash dest = false
  /\ forall s',
       _process_common image_path output_path verbose final_url s = (Ret tt, s') ->
       exists payload, fs (world s') = <[dest := Readable payload]> (fs (world s)).
Proof.
  intros Hunspec name ext dest.
  assert (Hdest : default_output_path image_path (clock (world s)) = dest).
  { unfold default_output_path, dest, name, ext.
    destruct (splitext (basename image_path)); reflexivity. }
  assert (Hrun : _process_common image_path output_path verbose final_url s
                 = (if truthy final_url then _download_file final_url dest s
                    else (Raise (ReminiError NoFinalUrl), s))).
  { unfold _process_common. destruct (truthy final_url); [| reflexivity].
    cbn [negb]. rewrite bind_run. cbn [get_world].
    rewrite Hunspec, Hdest. reflexivity. }
  split; [exact Hrun |].
  split; [apply splitext_join |].
  split; [rewrite <- Hdest; apply default_output_path_no_slash |].
  intros s' Hret. rewrite Hrun in Hret.
  destruct (truthy final_url); [| discriminate].
  exact (download_writes _ _ _ _ Hret).
Qed.

Lemma default_destination_witness :
  let s := {| self := example_client;
              world := example_world ∅ download_service |} in
  let dest := "cat_remini_20240102_030405.jpg" in
  _process_common "photos/cat.jpg" (Some "") true (JStr "https://x/out.jpg") s
  = _download_file (JStr "https://x/out.jpg") dest s
  /\ "cat" +:+ ".jpg" = basename "photos/cat.jpg"
  /\ has_slash dest = false
  /\ forall s',
       _process_common "photos/cat.jpg" (Some "") true (JStr "https://x/out.jpg") s
       = (Ret tt, s') ->
       exists payload, fs (world s') = <[dest := Readable payload]> (fs (world s)).
Proof.
  intros s dest.
  exact (default_destination "photos/cat.jpg" (Some "") true (JStr "https://x/out.jpg") s
           eq_refl).
Defined.

(** *** Session management *)

Lemma common_headers_sendable (c : Remini) (content_type : option string) :
  (truthy (identity_token c) = true -> is_str (identity_token c) = true) ->
  sendable (_get_common_headers c content_type) = true.
Proof.
  intros Hstr. unfold _get_common_headers.
  assert (Hbase : sendable
            (if truthy (identity_token c)
             then <["identity-token" := identity_token c]> (JStr <$> _android_headers c)
             else JStr <$> _android_headers c) = true).
  { destruct (truthy (identity_token c)); [| apply sendable_strings].
    specialize (Hstr eq_refl). destruct (identity_token c); try discriminate.
    apply sendable_insert_str, sendable_strings. }
  destruct content_type as [ct|]; [| exact Hbase].
  destruct (String.eqb ct ""); [exact Hbase |].
  apply sendable_insert_str, Hbase.
Qed.

Lemma common_headers_token (c : Remini) (content_type : option string) :
  truthy (identity_token c) = true ->
  _get_common_headers c content_type !! "identity-token" = Some (identity_token c).
Proof.
  intros Htruthy. unfold _get_common_headers. rewrite Htruthy.
  destruct content_type as [ct|]; [destruct (String.eqb ct "") |].
  - apply lookup_insert_eq.
  - rewrite lookup_insert_ne by discriminate. apply lookup_insert_eq.
  - apply lookup_insert_eq.
Qed.

Lemma common_headers_blocked (c : Remini) (content_type : option string) :
  truthy (identity_token c) = true ->
  is_str (identity_token c) = false ->
  sendable (_get_common_headers c content_type) = false.
Proof.
  intros Htruthy Hstr. unfold sendable. apply bool_decide_eq_false_2.
  intros Hall.
  specialize (Hall _ _ (common_headers_token c content_type Htruthy)).
  cbn beta in Hall. congruence.
Qed.

Lemma setup_headers_sendable (c : Remini) (w : World) :
  (truthy (identity_token c) = true -> is_str (identity_token c) = true) ->
  sendable (setup_headers c w) = true.
Proof.
  intros Hstr. unfold setup_headers.
  repeat apply sendable_insert_str. apply common_headers_sendable, Hstr.
Qed.

Lemma setup_headers_token (c : Remini) (w : World) :
  truthy (identity_token c) = true ->
  setup_headers c w !! "identity-token" = Some (identity_token c).
Proof.
  intros Htruthy. unfold setup_headers.
  rewrite !lookup_insert_ne by discriminate.
  apply common_headers_token, Htruthy.
Qed.

Lemma profile_without_token (s : State) :
  truthy (identity_token (self s)) = false -> _get_user_profile s = (Ret false, s).
Proof.
  intros Hfalsy. unfold _get_user_profile. rewrite bind_run. cbn [get_self].
  rewrite Hfalsy. reflexivity.
Qed.

Lemma profile_blocked (s : State) :
  truthy (identity_token (self s)) = true ->
  is_str (identity_token (self s)) = false ->
  _get_user_profile s = (Raise TypeError, s).
Proof.
  intros Htruthy Hstr. unfold _get_user_profile. rewrite bind_run. cbn [get_self].
  rewrite Htruthy. cbn [negb]. unfold try_except. rewrite bind_run.
  rewrite http_blocked by (apply common_headers_blocked; assumption).
  reflexivity.
Qed.

Lemma profile_run (s : State) :
  truthy (identity_token (self s)) = true ->
  is_str (identity_token (self s)) = true ->
  _get_user_profile s =
  let s1 := logged (profile_request (self s)) s in
  match net (world s) (length (sent (world s))) with
  | TransportError => (Raise RequestError, s1)
  | Response code payload =>
      if is_success code then
        match payload with
        | Json (JObj _) => (Ret true, s1)
        | Json _ => (Raise AttributeError, s1)
        | Garbled _ => (Raise JSONDecodeError, s1)
        | Binary _ => (Raise UnicodeDecodeError, s1)
        end
      else (Ret false, s1)
  end.
Proof.
  intros Htruthy Hstr. unfold _get_user_profile. rewrite bind_run. cbn [get_self].
  rewrite Htruthy. cbn [negb]. unfold try_except. rewrite bind_run.
  rewrite http_run by (apply common_headers_sendable; intros _; exact Hstr).
  fold (profile_request (self s)).
  destruct (net (world s) (length (sent (world s)))) as [|code payload]; [reflexivity |].
  rewrite bind_run. unfold raise_for_status. cbn [fst snd].
  destruct (is_success code); [| reflexivity].
  destruct payload as [[| | | | |]| |]; reflexivity.
Qed.

(** A probe that answers [False] leaves a token the transport can carry. *)
Lemma profile_false_sendable (s s' : State) :
  _get_user_profile s = (Ret false, s') ->
  truthy (identity_token (self s)) = true ->
  is_str (identity_token (self s)) = true.
Proof.
  intros Hrun Htruthy.
  destruct (is_str (identity_token (self s))) eqn:Hstr; [reflexivity |].
  rewrite (profile_blocked s Htruthy Hstr) in Hrun. discriminate.
Qed.

Lemma setup_run (s : State) :
  (truthy (identity_token (self s)) = true -> is_str (identity_token (self s)) = true) ->
  _get_setup s =
  let s1 := logged (setup_request (self s) (world s)) s in
  match net (world s) (length (sent (world s))) with
  | TransportError => (Raise RequestError, s1)
  | Response code payload =>
      if is_success code then
        match payload with
        | Json data =>
            match setup_token data with
            | Some token =>
                if truthy token
                then (Ret tt,
                      {| self := with_token (self s) token;
                         world := with_file (token_path (self s)) (token_file token)
                                    (world s1) |})
                else (Raise (ReminiError (TokenNotFound data)), s1)
            | None => (Raise AttributeError, s1)
            end
        | Garbled _ => (Raise JSONDecodeError, s1)
        | Binary _ => (Raise UnicodeDecodeError, s1)
        end
      else (Raise (ReminiError (SetupHttpError code)), s1)
  end.
Proof.
  intros Hstr. unfold _get_setup. rewrite bind_run. cbn [get_self].
  rewrite bind_run. cbn [get_world]. unfold try_except. rewrite bind_run.
  rewrite http_run by (apply setup_headers_sendable, Hstr).
  fold (setup_request (self s) (world s)).
  destruct (net (world s) (length (sent (world s)))) as [|code payload]; [reflexivity |].
  rewrite bind_run. unfold raise_for_status. cbn [fst snd].
  destruct (is_success code); [| reflexivity].
  destruct payload as [data| |]; try reflexivity.
  cbv [bind ret json_of py_get setup_token mbind option_bind].
  destruct (dict_get data "settings" (JObj [])) as [settings|]; [| reflexivity].
  destruct (dict_get settings "__identity__" (JObj [])) as [identity|]; [| reflexivity].
  destruct (dict_get identity "token" JNull) as [token|]; [| reflexivity].
  destruct (truthy token) eqn:Htok; [| reflexivity].
  cbv [negb set_identity_token _save_identity_token bind get_self].
  cbn [self with_token identity_token]. rewrite Htok. reflexivity.
Qed.

Lemma login_run (s : State) :
  _login s =
  match _load_identity_token s with
  | (Ret _, s1) =>
      match (if truthy (identity_token (self s1))
             then _get_user_profile s1 else (Ret false, s1)) with
      | (Ret true, s2) => (Ret tt, s2)
      | (Ret false, s2) =>
          match _get_setup s2 with
          | (Ret _, s3) =>
              match _get_user_profile s3 with
              | (Ret true, s4) => (Ret tt, s4)
              | (Ret false, s4) => (Raise (ReminiError ActivationFailed), s4)
              | (Raise e, s4) => (Raise e, s4)
              | (Spin, s4) => (Spin, s4)
              end
          | (Raise e, s3) => (Raise e, s3)
          | (Spin, s3) => (Spin, s3)
          end
      | (Raise e, s2) => (Raise e, s2)
      | (Spin, s2) => (Spin, s2)
      end
  | (Raise e, s1) => (Raise e, s1)
  | (Spin, s1) => (Spin, s1)
  end.
Proof.
  unfold _login. rewrite bind_run.
  destruct (_load_identity_token s) as [[[]|e|] s1]; try reflexivity.
  rewrite bind_run. cbn [get_self]. rewrite bind_run.
  destruct (truthy (identity_token (self s1))).
  - destruct (_get_user_profile s1) as [[[|]|e|] s2]; try reflexivity.
    rewrite bind_run. destruct (_get_setup s2) as [[[]|e|] s3]; try reflexivity.
    rewrite bind_run.
    destruct (_get_user_profile s3) as [[[|]|e|] s4]; reflexivity.
  - cbn [ret]. rewrite bind_run.
    destruct (_get_setup s1) as [[[]|e|] s3]; try reflexivity.
    rewrite bind_run.
    destruct (_get_user_profile s3) as [[[|]|e|] s4]; reflexivity.
Qed.

Lemma requests_between_app (s s' : State) (rs : list request) :
  sent (world s') = sent (world s) ++ rs -> requests_between s s' = rs.
Proof. intros Hsent. unfold requests_between. rewrite Hsent. apply drop_app_length. Qed.

(** A probe that answers [False] with a token in hand has sent one request
    and changed nothing else. *)
Lemma profile_false_state (s s' : State) :
  truthy (identity_token (self s)) = true ->
  _get_user_profile s = (Ret false, s') ->
  s' = logged (profile_request (self s)) s.
Proof.
  intros Htruthy Hrun.
  pose proof (profile_false_sendable s s' Hrun Htruthy) as Hstr.
  rewrite (profile_run s Htruthy Hstr) in Hrun. cbv zeta in Hrun.
  destruct (net (world s) (length (sent (world s)))) as [|code payload]; [discriminate |].
  destruct (is_success code).
  - destruct payload as [[| | | | |]| |]; discriminate.
  - congruence.
Qed.

Lemma needs_bootstrap_sendable (s s2 : State) :
  needs_bootstrap s s2 ->
  truthy (identity_token (self s2)) = true -> is_str (identity_token (self s2)) = true.
Proof.
  intros [s1 [_ [[Hfalsy ->] | [Htruthy Hprobe]]]] Hs2.
  - congruence.
  - rewrite (profile_false_state _ _ Htruthy Hprobe). cbn [logged self].
    exact (profile_false_sendable _ _ Hprobe Htruthy).
Qed.

Lemma login_bootstrap (s s2 : State) :
  needs_bootstrap s s2 ->
  _login s =
  match _get_setup s2 with
  | (Ret _, s3) =>
      match _get_user_profile s3 with
      | (Ret true, s4) => (Ret tt, s4)
      | (Ret false, s4) => (Raise (ReminiError ActivationFailed), s4)
      | (Raise e, s4) => (Raise e, s4)
      | (Spin, s4) => (Spin, s4)
      end
  | (Raise e, s3) => (Raise e, s3)
  | (Spin, s3) => (Spin, s3)
  end.
Proof.
  intros [s1 [Hload [[Hfalsy ->] | [Htruthy Hprobe]]]];
    rewrite login_run, Hload.
  - rewrite Hfalsy. reflexivity.
  - rewrite Htruthy, Hprobe. reflexivity.
Qed.

(** The bootstrap in terms of the service's answer: a minted token is
    stored in the client and in the token file; otherwise the call raises
    and only the request has happened. *)
Lemma bootstrap_run (s : State) :
  (truthy (identity_token (self s)) = true -> is_str (identity_token (self s)) = true) ->
  let s1 := logged (setup_request (self s) (world s)) s in
  match minted_token (net (world s) (length (sent (world s)))) with
  | Some token =>
      _get_setup s
      = (Ret tt, {| self := with_token (self s) token;
                    world := with_file (token_path (self s)) (token_file token)
                               (world s1) |})
  | None => exists e, _get_setup s = (Raise e, s1)
  end.
Proof.
  intros Hstr s1. rewrite (setup_run s Hstr). fold s1. unfold minted_token.
  destruct (net (world s) (length (sent (world s)))) as [|code payload]; [eauto |].
  destruct payload as [data| |]; destruct (is_success code); eauto.
  destruct (setup_token data) as [token|]; [| eauto].
  destruct (truthy token); eauto.
Qed.

Lemma minted_truthy (r : reply) (token : json) :
  minted_token r = Some token -> truthy token = true.
Proof.
  unfold minted_token. destruct r as [|code [data| |]]; try discriminate.
  destruct (is_success code); [| discriminate].
  destruct (setup_token data) as [tok|]; [| discriminate].
  destruct (truthy tok) eqn:Htok; [| discriminate].
  intros [= <-]. exact Htok.
Qed.

Lemma load_token_path (s s1 : State) (o : outcome unit) :
  _load_identity_token s = (o, s1) -> token_path (self s1) = token_path (self s).
Proof.
  rewrite load_run.
  destruct (fs (world s) !! token_path (self s)) as [[|[v|text|bytes]]|];
    try (intros [= _ <-]; reflexivity).
  destruct (dict_get v "identity_token" JNull); intros [= _ <-]; reflexivity.
Qed.

(** The whole of [_login] once the bootstrap is needed, read off the
    service's answers to the bootstrap request and to the re-probe. *)
Lemma login_after_bootstrap (s s2 : State) :
  needs_bootstrap s s2 ->
  let n := length (sent (world s2)) in
  let setup := setup_request (self s2) (world s2) in
  match minted_token (net (world s2) n) with
  | Some token =>
      let c := with_token (self s2) token in
      let w := with_file (token_path (self s2)) (token_file token)
                 (log_request setup (world s2)) in
      if is_str token then
        exists o : outcome unit,
          _login s = (o, {| self := c; world := log_request (profile_request c) w |})
          /\ (forall code payload,
                net (world s2) (S n) = Response code payload ->
                is_success code = false ->
                o = Raise (ReminiError ActivationFailed))
      else _login s = (Raise TypeError, {| self := c; world := w |})
  | None => exists e, _login s = (Raise e, logged setup s2)
  end.
Proof.
  intros Hneed n setup.
  rewrite (login_bootstrap s s2 Hneed).
  pose proof (bootstrap_run s2 (needs_bootstrap_sendable s s2 Hneed)) as Hboot.
  cbv zeta in Hboot. fold n setup in Hboot.
  destruct (minted_token (net (world s2) n)) as [token|] eqn:Hmint.
  - rewrite Hboot. apply minted_truthy in Hmint.
    set (c := with_token (self s2) token).
    set (w := with_file _ _ _).
    destruct (is_str token) eqn:Hstr.
    + rewrite (profile_run {| self := c; world := w |} Hmint Hstr).
      cbn [self world logged]. fold (profile_request c).
      replace (length (sent w)) with (S n)
        by (subst w; cbn [with_file sent log_request world logged];
            rewrite length_app; cbn [length]; subst n; lia).
      replace (net w) with (net (world s2)) by reflexivity.
      destruct (net (world s2) (S n)) as [|code payload].
      * eexists. split; [reflexivity |]. intros ? ? [=].
      * destruct (is_success code) eqn:Hcode.
        -- destruct payload as [[| | | | |]| |];
             (eexists; split; [reflexivity |]; intros ? ? [= <- <-] ?; congruence).
        -- eexists. split; [reflexivity |]. reflexivity.
    + rewrite (profile_blocked {| self := c; world := w |} Hmint Hstr). reflexivity.
  - destruct Hboot as [e ->]. exists e. reflexivity.
Qed.









(** *** Task creation *)

Lemma create_task_run {platform : Platform} (file_path : string) (feature : json)
    (s : State) :
  _create_image_task file_path feature s =
  match fs (world s) !! file_path with
  | None => (Raise (FileNotFoundError file_path), s)
  | Some Unreadable => (Raise IOError, s)
  | Some (Readable bytes) =>
      let create := create_request (self s) file_path feature (Readable bytes) bytes in
      let s1 := logged create s in
      if sendable (headers create) then
        match net (world s) (length (sent (world s))) with
        | TransportError => (Raise RequestError, s1)
        | Response code payload =>
            if is_success code then
              match payload with
              | Json (JObj fields) =>
                  let task_id := default JNull (assoc "task_id" fields) in
                  let upload_url := default JNull (assoc "upload_url" fields) in
                  let upload_headers := default JNull (assoc "upload_headers" fields) in
                  if all_truthy [task_id; upload_url; upload_headers]
                  then (_upload_file_to_gcs upload_url file_path upload_headers;;
                        ret task_id) s1
                  else (Raise (ReminiError (MissingFields (JObj fields))), s1)
              | Json _ => (Raise AttributeError, s1)
              | Garbled _ => (Raise JSONDecodeError, s1)
              | Binary _ => (Raise UnicodeDecodeError, s1)
              end
            else (Raise (ReminiError (UploadUrlFailed code)), s1)
        end
      else (Raise TypeError, s)
  end.
Proof.
  unfold _create_image_task. fold (mime_type_of file_path).
  rewrite bind_run. unfold _calculate_md5_base64. rewrite bind_run. unfold read_file.
  destruct (fs (world s) !! file_path) as [[|bytes]|] eqn:Hfile; try reflexivity.
  cbn [ret]. rewrite bind_run. unfold _get_image_metadata. rewrite bind_run.
  cbn [get_world]. rewrite Hfile.
  replace (match image_size (Readable bytes) with
           | Some (width, height) =>
               ret (JObj ([("size", JNum (getsize (Readable bytes)))]
                          ++ [("width", JNum width); ("height", JNum height)]))
           | None => ret (JObj [("size", JNum (getsize (Readable bytes)))])
           end s)
    with (Ret (metadata_of (Readable bytes)), s)
    by (unfold metadata_of; destruct (image_size (Readable bytes)) as [[? ?]|]; reflexivity).
  rewrite bind_run. unfold try_except at 1. rewrite bind_run. cbn [get_self].
  rewrite bind_run.
  fold (create_request (self s) file_path feature (Readable bytes) bytes).
  set (create := create_request (self s) file_path feature (Readable bytes) bytes).
  cbv zeta.
  destruct (sendable (headers create)) eqn:Hsend;
    [rewrite (http_run create s Hsend) | rewrite (http_blocked create s Hsend); reflexivity].
  destruct (net (world s) (length (sent (world s)))) as [|code payload]; [reflexivity |].
  rewrite bind_run. unfold raise_for_status. cbn [fst snd].
  destruct (is_success code); [| reflexivity].
  destruct payload as [[| | | | |fields]| |]; try reflexivity.
  cbv [ret bind json_of py_get dict_get negb].
  destruct (all_truthy _); reflexivity.
Qed.

Lemma requests_between_refl (s : State) : requests_between s s = [].
Proof. unfold requests_between. apply drop_all. Qed.

Lemma all_truthy_missing (fields : list (string * json)) :
  assoc "task_id" fields = None
  \/ assoc "upload_url" fields = None
  \/ assoc "upload_headers" fields = None ->
  all_truthy (upload_fields (JObj fields)) = false.
Proof.
  unfold all_truthy, upload_fields. cbn [forallb].
  intros [-> | [-> | ->]]; cbn [default truthy];
    rewrite ?andb_false_r; reflexivity.
Qed.

(** A PUT among the requests of [_create_image_task] means that the
    creation answer was a 2xx JSON object with the three fields set. *)
Lemma upload_needs_all_fields {platform : Platform} (file_path : string) (feature : json)
    (s s' : State) (o : outcome json) (r : request) :
  _create_image_task file_path feature s = (o, s') ->
  r ∈ requests_between s s' ->
  meth r = PUT ->
  exists code fields,
    net (world s) (length (sent (world s))) = Response code (Json (JObj fields))
    /\ is_success code = true
    /\ all_truthy (upload_fields (JObj fields)) = true.
Proof.
  rewrite create_task_run. intros Hrun Hin Hput.
  assert (Hnone : forall s0, s' = s0 -> s0 = s -> False).
  { intros s0 -> ->. rewrite requests_between_refl in Hin. inversion Hin. }
  assert (Hone : forall (create : request) s0,
            s' = s0 -> s0 = logged create s -> meth create = POST -> False).
  { intros create s0 -> -> Hpost.
    rewrite (requests_between_app s (logged create s) [create] eq_refl) in Hin.
    apply list_elem_of_singleton in Hin as ->. congruence. }
  destruct (fs (world s) !! file_path) as [[|bytes]|];
    try (injection Hrun as _ Hs'; exfalso; eapply Hnone; eauto; fail).
  cbv zeta in Hrun.
  destruct (sendable _);
    [| injection Hrun as _ Hs'; exfalso; eapply Hnone; eauto].
  destruct (net (world s) (length (sent (world s)))) as [|code payload];
    [injection Hrun as _ Hs'; exfalso; eapply Hone; eauto; reflexivity |].
  destruct (is_success code) eqn:Hcode;
    [| injection Hrun as _ Hs'; exfalso; eapply Hone; eauto; reflexivity].
  destruct payload as [[| | | | |fields]| |];
    try (injection Hrun as _ Hs'; exfalso; eapply Hone; eauto; reflexivity).
  destruct (all_truthy _) eqn:Hall;
    [| injection Hrun as _ Hs'; exfalso; eapply Hone; eauto; reflexivity].
  exists code, fields. split; [reflexivity |]. split; [exact Hcode | exact Hall].
Qed.

(** C4: when the creation answer lacks [task_id], [upload_url] or
    [upload_headers], [_create_image_task] raises [ReminiError] having sent
    the creation request and nothing else, so the upload is never started;
    and whenever a PUT is among the requests of [_create_image_task], the
    creation answer carried all three fields. *)
Theorem missing_field_never_uploads {platform : Platform} (file_path : string)
    (feature : json) (s : State) (bytes : content) (code : Z)
    (fields : list (string * json)) :
  fs (world s) !! file_path = Some (Readable bytes) ->
  (truthy (identity_token (self s)) = true -> is_str (identity_token (self s)) = true) ->
  net (world s) (length (sent (world s))) = Response code (Json (JObj fields)) ->
  is_success code = true ->
  assoc "task_id" fields = None
  \/ assoc "upload_url" fields = None
  \/ assoc "upload_headers" fields = None ->
  let create := create_request (self s) file_path feature (Readable bytes) bytes in
  (exists s',
     _create_image_task file_path feature s
     = (Raise (ReminiError (MissingFields (JObj fields))), s')
     /\ requests_between s s' = [create]
     /\ meth create = POST
     /\ fs (world s') = fs (world s))
  /\ (forall (s0 s0' : State) (o : outcome json) (r : request),
        _create_image_task file_path feature s0 = (o, s0') ->
        r ∈ requests_between s0 s0' ->
        meth r = PUT ->
        exists code0 fields0,
          net (world s0) (length (sent (world s0))) = Response code0 (Json (JObj fields0))
          /\ is_success code0 = true
          /\ all_truthy (upload_fields (JObj fields0)) = true).
Proof.
  intros Hfile Hstr Hnet Hcode Hmissing create.
  split; [| intros s0 s0' o r; apply upload_needs_all_fields].
  exists (logged create s).
  split; [| split; [apply requests_between_app; reflexivity | split; reflexivity]].
  rewrite create_task_run, Hfile. cbv zeta. fold create.
  replace (sendable (headers create)) with true
    by (symmetry; apply common_headers_sendable, Hstr).
  rewrite Hnet, Hcode.
  pose proof (all_truthy_missing fields Hmissing) as Hall.
  unfold upload_fields in Hall. rewrite Hall. reflexivity.
Qed.

Lemma missing_field_never_uploads_witness :
  let s := {| self := example_client; world := example_world photo incomplete_service |} in
  let create :=
    create_request (platform := example_platform) (self s) "/home/u/photo.jpg"
      enhance_feature (Readable (Binary "JFIF")) (Binary "JFIF") in
  (exists s',
     _create_image_task (platform := example_platform) "/home/u/photo.jpg" enhance_feature s
     = (Raise (ReminiError (MissingFields
          (JObj [("task_id", JStr "T1");
                 ("upload_headers", JObj [("x-goog-meta", JStr "1")])]))), s')
     /\ requests_between s s' = [create]
     /\ meth create = POST
     /\ fs (world s') = fs (world s))
  /\ (forall (s0 s0' : State) (o : outcome json) (r : request),
        _create_image_task (platform := example_platform) "/home/u/photo.jpg"
          enhance_feature s0 = (o, s0') ->
        r ∈ requests_between s0 s0' ->
        meth r = PUT ->
        exists code0 fields0,
          net (world s0) (length (sent (world s0))) = Response code0 (Json (JObj fields0))
          /\ is_success code0 = true
          /\ all_truthy (upload_fields (JObj fields0)) = true).
Proof.
  intros s create.
  apply (missing_field_never_uploads (platform := example_platform)
           "/home/u/photo.jpg" enhance_feature s (Binary "JFIF") 200
           [("task_id", JStr "T1");
            ("upload_headers", JObj [("x-goog-meta", JStr "1")])]).
  - reflexivity.
  - discriminate.
  - reflexivity.
  - reflexivity.
  - right. left. reflexivity.
Defined.

(** *** The polling loop *)

Lemma poll_verdict_not_found (payload : content) (s : State) :
  poll_verdict (404%Z, payload) s = (Ret None, s).
Proof. reflexivity. Qed.

Lemma poll_verdict_in_progress (code : Z) (data st : json) (s : State) :
  is_success code = true ->
  dict_get data "status" JNull = Some st ->
  (forall x, st = JStr x -> terminal x = false) ->
  poll_verdict (code, Json data) s = (Ret None, s).
Proof.
  intros Hcode Hstatus Hopen. unfold poll_verdict, try_except.
  destruct (code =? 404)%Z eqn:H404.
  { apply Z.eqb_eq in H404. subst code. discriminate Hcode. }
  cbv [bind raise_for_status json_of ret py_get]. rewrite Hcode, Hstatus.
  destruct st as [| | |x| |]; try reflexivity.
  specialize (Hopen x eq_refl). unfold terminal in Hopen.
  apply orb_false_elim in Hopen as [Hopen Herror].
  apply orb_false_elim in Hopen as [Hcompleted Hfailed].
  rewrite Hcompleted, Hfailed, Herror. reflexivity.
Qed.

(** A verdict never touches the state, and [return] is reached only on a
    2xx JSON answer whose status is ["completed"]. *)
Lemma poll_verdict_return (code : Z) (payload : content) (s s' : State) (v : json) :
  poll_verdict (code, payload) s = (Ret (Some v), s') ->
  s' = s /\ reports (Response code payload) (JStr "completed").
Proof.
  unfold poll_verdict, try_except, reports.
  destruct (code =? 404)%Z; [discriminate |].
  cbv [bind raise_for_status json_of ret py_get raise].
  destruct (is_success code) eqn:Hcode; [| discriminate].
  destruct payload as [data| |]; try discriminate.
  destruct (dict_get data "status" JNull) as [st|] eqn:Hstatus; [| discriminate].
  destruct st as [| | |x| |]; try discriminate.
  destruct (String.eqb_spec x "completed") as [-> | Hne].
  - unfold output_url. cbv [bind py_get ret].
    intros Hrun. split; [| eauto 6].
    destruct (dict_get data "result" (JObj [])) as [result|]; [| discriminate].
    destruct (dict_get result "outputs" JNull) as [outputs|]; [| discriminate].
    destruct outputs as [| | | |[|first rest]|]; try congruence.
    destruct (dict_get first "url" JNull) as [u|]; [| discriminate].
    destruct (truthy u); congruence.
  - destruct (String.eqb x "failed" || String.eqb x "error");
      [destruct (dict_get data "errors" JNull) |]; discriminate.
Qed.

Lemma poll_verdict_state (response : Z * content) (s s' : State) (o : outcome (option json)) :
  poll_verdict response s = (o, s') -> s' = s.
Proof.
  destruct response as [code payload].
  unfold poll_verdict, try_except.
  destruct (code =? 404)%Z; [intros [= _ <-]; reflexivity |].
  cbv [bind raise_for_status json_of ret py_get raise].
  destruct (is_success code); [| intros [= _ <-]; reflexivity].
  destruct payload as [data| |]; try (intros [= _ <-]; reflexivity).
  destruct (dict_get data "status" JNull) as [st|]; [| intros [= _ <-]; reflexivity].
  destruct st as [| | |x| |]; try (intros [= _ <-]; reflexivity).
  destruct (String.eqb x "completed").
  - unfold output_url. cbv [bind py_get ret raise].
    destruct (dict_get data "result" (JObj [])) as [result|];
      [| intros [= _ <-]; reflexivity].
    destruct (dict_get result "outputs" JNull) as [outputs|];
      [| intros [= _ <-]; reflexivity].
    destruct outputs as [| | | |[|first rest]|]; try (intros [= _ <-]; reflexivity).
    destruct (dict_get first "url" JNull) as [u|]; [| intros [= _ <-]; reflexivity].
    destruct (truthy u); intros [= _ <-]; reflexivity.
  - destruct (String.eqb x "failed" || String.eqb x "error");
      [destruct (dict_get data "errors" JNull) |]; intros [= _ <-]; reflexivity.
Qed.

Lemma poll_iteration_run {platform : Platform} (task_id : json) (s : State) :
  poll_iteration task_id s =
  let request := poll_request (self s) task_id in
  if sendable (headers request) then
    match net (world s) (length (sent (world s))) with
    | TransportError => (Raise RequestError, logged request (napped s))
    | Response code payload => poll_verdict (code, payload) (logged request (napped s))
    end
  else (Raise TypeError, napped s).
Proof.
  unfold poll_iteration. rewrite bind_run. cbn [sleep]. rewrite bind_run.
  cbn [get_self self]. rewrite bind_run.
  fold (poll_request (self s) task_id). fold (napped s). cbv zeta.
  destruct (sendable (headers (poll_request (self s) task_id))) eqn:Hsend.
  - rewrite (http_run _ _ Hsend). cbn [napped world with_nap net sent self].
    destruct (net (world s) (length (sent (world s)))) as [|code payload];
      reflexivity.
  - rewrite (http_blocked _ _ Hsend). reflexivity.
Qed.

Lemma poll_step {platform : Platform} (fuel : nat) (task_id : json) (s : State) :
  _poll_status_http (S fuel) task_id s =
  match poll_iteration task_id s with
  | (Ret (Some v), s1) => (Ret v, s1)
  | (Ret None, s1) => _poll_status_http fuel task_id s1
  | (Raise e, s1) => (Raise e, s1)
  | (Spin, s1) => (Spin, s1)
  end.
Proof.
  cbn [_poll_status_http]. rewrite bind_run.
  destruct (poll_iteration task_id s) as [[[v|]|e|] s1]; reflexivity.
Qed.

(** An iteration that neither raises nor spins has slept once, sent one
    request, and judged the answer to it. *)
Lemma poll_iteration_ret {platform : Platform} (task_id : json) (s s1 : State)
    (x : option json) :
  poll_iteration task_id s = (Ret x, s1) ->
  s1 = logged (poll_request (self s) task_id) (napped s)
  /\ exists code payload,
       net (world s) (length (sent (world s))) = Response code payload
       /\ poll_verdict (code, payload) s1 = (Ret x, s1).
Proof.
  rewrite poll_iteration_run. cbv zeta.
  destruct (sendable _); [| discriminate].
  destruct (net (world s) (length (sent (world s)))) as [|code payload]; [discriminate |].
  intros Hverdict. pose proof (poll_verdict_state _ _ _ _ Hverdict) as ->.
  split; [reflexivity |]. exists code, payload. split; [reflexivity | exact Hverdict].
Qed.

Lemma logged_length (r : request) (s : State) :
  length (sent (world (logged r s))) = S (length (sent (world s))).
Proof. cbn [logged world log_request sent]. rewrite length_app. cbn [length]. lia. Qed.

(** When the poll returns, the answer to its last request was a 2xx JSON
    document with status ["completed"]. *)
Lemma poll_return_observed {platform : Platform} (fuel : nat) (task_id : json)
    (s s' : State) (v : json) :
  _poll_status_http fuel task_id s = (Ret v, s') ->
  net (world s') = net (world s)
  /\ exists k,
       length (sent (world s)) <= k
       /\ S k = length (sent (world s'))
       /\ reports (net (world s) k) (JStr "completed").
Proof.
  revert s. induction fuel as [|fuel IH]; intros s; [discriminate |].
  rewrite poll_step.
  destruct (poll_iteration task_id s) as [[[u|]|e|] s1] eqn:Hiter; try discriminate.
  - intros [= -> ->].
    destruct (poll_iteration_ret _ _ _ _ Hiter) as [Hs1 [code [payload [Hnet Hverdict]]]].
    apply poll_verdict_return in Hverdict as [_ Hreports].
    split; [rewrite Hs1; reflexivity |].
    exists (length (sent (world s))). split; [lia |].
    split; [rewrite Hs1; cbn [napped]; rewrite logged_length; reflexivity |].
    rewrite Hnet. exact Hreports.
  - intros Hrest.
    destruct (poll_iteration_ret _ _ _ _ Hiter) as [Hs1 _].
    destruct (IH s1 Hrest) as [Hnet [k [Hle [Hlast Hreports]]]].
    assert (Hnet1 : net (world s1) = net (world s)) by (rewrite Hs1; reflexivity).
    assert (Hlen1 : length (sent (world s1)) = S (length (sent (world s))))
      by (rewrite Hs1, logged_length; reflexivity).
    split; [congruence |].
    exists k. split; [lia |]. split; [exact Hlast |]. rewrite <- Hnet1. exact Hreports.
Qed.

(** On a 404, and on a 2xx answer whose status is some other string, the
    loop goes round again. *)
Lemma poll_continues {platform : Platform} (fuel : nat) (task_id : json) (s : State)
    (code : Z) (payload : content) :
  (truthy (identity_token (self s)) = true -> is_str (identity_token (self s)) = true) ->
  net (world s) (length (sent (world s))) = Response code payload ->
  (code = 404%Z
   \/ exists data st,
        payload = Json data /\ is_success code = true
        /\ dict_get data "status" JNull = Some (JStr st) /\ terminal st = false) ->
  _poll_status_http (S fuel) task_id s
  = _poll_status_http fuel task_id (logged (poll_request (self s) task_id) (napped s)).
Proof.
  intros Hstr Hnet Hopen. rewrite poll_step, poll_iteration_run. cbv zeta.
  replace (sendable (headers (poll_request (self s) task_id))) with true
    by (symmetry; apply common_headers_sendable, Hstr).
  rewrite Hnet.
  destruct Hopen as [-> | [data [st [-> [Hcode [Hstatus Hterm]]]]]].
  - rewrite poll_verdict_not_found. reflexivity.
  - rewrite (poll_verdict_in_progress code data (JStr st) _ Hcode Hstatus);
      [reflexivity |].
    intros x [= <-]. exact Hterm.
Qed.

(** C2: [_poll_status_http] returns a value only once an answer with status
    ["completed"] has been observed, that answer being the one to its last
    request; on a 404 answer, and on a 2xx answer whose status is a string
    other than ["completed"], ["failed"] and ["error"], the loop continues
    with the next iteration instead of returning or raising. *)
Theorem poll_waits_for_terminal_status {platform : Platform} (task_id : json) :
  (forall (fuel : nat) (s s' : State) (v : json),
     _poll_status_http fuel task_id s = (Ret v, s') ->
     exists k,
       length (sent (world s)) <= k < length (sent (world s'))
       /\ reports (net (world s) k) (JStr "completed")
       /\ terminal "completed" = true)
  /\ (forall (fuel : nat) (s : State) (code : Z) (payload : content),
        (truthy (identity_token (self s)) = true -> is_str (identity_token (self s)) = true) ->
        net (world s) (length (sent (world s))) = Response code payload ->
        (code = 404%Z
         \/ exists data st,
              payload = Json data /\ is_success code = true
              /\ dict_get data "status" JNull = Some (JStr st) /\ terminal st = false) ->
        _poll_status_http (S fuel) task_id s
        = _poll_status_http fuel task_id (logged (poll_request (self s) task_id) (napped s))).
Proof.
  split.
  - intros fuel s s' v Hrun.
    destruct (poll_return_observed fuel task_id s s' v Hrun) as [_ [k [Hle [Hlast Hrep]]]].
    exists k. split; [lia |]. split; [exact Hrep | reflexivity].
  - intros fuel s code payload. apply poll_continues.
Qed.

Lemma poll_waits_for_terminal_status_witness :
  let s := {| self := with_token example_client (JStr "eyJhbGciOi");
              world := example_world ∅ slow_service |} in
  let poll := _poll_status_http (platform := example_platform) in
  (exists k,
     0 <= k < 4 /\ reports (slow_service k) (JStr "completed")
     /\ terminal "completed" = true)
  /\ poll 4 (JStr "T1") s
     = poll 3 (JStr "T1")
         (logged (poll_request (platform := example_platform) (self s) (JStr "T1"))
            (napped s)).
Proof.
  intros s poll. split.
  - exact (proj1 (poll_waits_for_terminal_status (platform := example_platform) (JStr "T1"))
             4 s (snd (poll 4 (JStr "T1") s)) (JStr "https://x/base.jpg") eq_refl).
  - apply (proj2 (poll_waits_for_terminal_status (platform := example_platform) (JStr "T1"))
             3 s 404%Z (Garbled "Not Found")).
    + reflexivity.
    + reflexivity.
    + left. reflexivity.
Defined.

(** *** Steps that leave the client alone *)

Lemma steady_here {A : Type} (m : M A) :
  (forall s, exists o, m s = (o, s)) -> steady m.
Proof.
  intros Hm s s' o Hrun. destruct (Hm s) as [o' Ho'].
  rewrite Ho' in Hrun. injection Hrun as _ <-.
  split; [reflexivity |]. split; [reflexivity |]. exists []. symmetry. apply app_nil_r.
Qed.

Lemma steady_ret {A : Type} (a : A) : steady (ret a).
Proof. apply steady_here. intros s. eexists. reflexivity. Qed.

Lemma steady_raise {A : Type} (e : exn) : steady (raise (A := A) e).
Proof. apply steady_here. intros s. eexists. reflexivity. Qed.

Lemma steady_spin {A : Type} : steady (fun s => (@Spin A, s)).
Proof. apply steady_here. intros s. eexists. reflexivity. Qed.

Lemma steady_get_self : steady get_self.
Proof. apply steady_here. intros s. eexists. reflexivity. Qed.

Lemma steady_get_world : steady get_world.
Proof. apply steady_here. intros s. eexists. reflexivity. Qed.

Lemma steady_path_exists (path : string) : steady (path_exists path).
Proof. apply steady_here. intros s. eexists. reflexivity. Qed.

Lemma steady_read_file (path : string) : steady (read_file path).
Proof.
  apply steady_here. intros s. unfold read_file.
  destruct (fs (world s) !! path) as [[|c]|]; eexists; reflexivity.
Qed.

Lemma steady_json_of (c : content) : steady (json_of c).
Proof. destruct c; [apply steady_ret | apply steady_raise | apply steady_raise]. Qed.

Lemma steady_py_get (v : json) (k : string) (d : json) : steady (py_get v k d).
Proof.
  unfold py_get. destruct (dict_get v k d); [apply steady_ret | apply steady_raise].
Qed.

Lemma steady_url_of (v : json) : steady (url_of v).
Proof. destruct v; first [apply steady_ret | apply steady_raise]. Qed.

Lemma steady_user_agent (c : Remini) : steady (user_agent c).
Proof.
  unfold user_agent.
  destruct (_android_headers c !! "user-agent"); [apply steady_ret | apply steady_raise].
Qed.

Lemma steady_raise_for_status (code : Z) : steady (raise_for_status code).
Proof.
  unfold raise_for_status. destruct (is_success code); [apply steady_ret | apply steady_raise].
Qed.

Lemma steady_sleep : steady sleep.
Proof.
  intros s s' o [= _ <-]. split; [reflexivity |]. split; [reflexivity |].
  exists []. symmetry. apply app_nil_r.
Qed.

Lemma steady_write_file (path : string) (c : content) : steady (write_file path c).
Proof.
  intros s s' o [= _ <-]. split; [reflexivity |]. split; [reflexivity |].
  exists []. symmetry. apply app_nil_r.
Qed.

Lemma steady_http (r : request) : steady (http r).
Proof.
  intros s s' o. unfold http. destruct (sendable (headers r)).
  - destruct (net (world s) (length (sent (world s)))) as [|code payload];
      intros [= _ <-]; (split; [reflexivity |]); (split; [reflexivity |]);
      exists [r]; reflexivity.
  - intros [= _ <-]. split; [reflexivity |]. split; [reflexivity |].
    exists []. symmetry. apply app_nil_r.
Qed.

Lemma steady_trans (s s1 s' : State) :
  (self s1 = self s /\ net (world s1) = net (world s)
   /\ exists rs, sent (world s1) = sent (world s) ++ rs) ->
  (self s' = self s1 /\ net (world s') = net (world s1)
   /\ exists rs, sent (world s') = sent (world s1) ++ rs) ->
  self s' = self s /\ net (world s') = net (world s)
  /\ exists rs, sent (world s') = sent (world s) ++ rs.
Proof.
  intros [Hc1 [Hn1 [rs1 Hl1]]] [Hc2 [Hn2 [rs2 Hl2]]].
  split; [congruence |]. split; [congruence |].
  exists (rs1 ++ rs2). rewrite Hl2, Hl1. symmetry. apply app_assoc.
Qed.

Lemma steady_bind {A B : Type} (m : M A) (k : A -> M B) :
  steady m -> (forall a, steady (k a)) -> steady (bind m k).
Proof.
  intros Hm Hk s s' o. rewrite bind_run.
  destruct (m s) as [[a|e|] s1] eqn:Hrun; specialize (Hm _ _ _ Hrun).
  - intros Hrest. exact (steady_trans _ _ _ Hm (Hk a _ _ _ Hrest)).
  - intros [= _ <-]. exact Hm.
  - intros [= _ <-]. exact Hm.
Qed.

Lemma steady_try_except {A : Type} (m : M A) (h : exn -> option (M A)) :
  steady m -> (forall e k, h e = Some k -> steady k) -> steady (try_except m h).
Proof.
  intros Hm Hh s s' o. unfold try_except.
  destruct (m s) as [[a|e|] s1] eqn:Hrun; specialize (Hm _ _ _ Hrun).
  - intros [= _ <-]. exact Hm.
  - destruct (h e) as [k|] eqn:He.
    + intros Hrest. exact (steady_trans _ _ _ Hm (Hh e k He _ _ _ Hrest)).
    + intros [= _ <-]. exact Hm.
  - intros [= _ <-]. exact Hm.
Qed.

#[local] Hint Resolve steady_ret steady_raise steady_spin steady_get_self steady_get_world
  steady_path_exists steady_read_file steady_json_of steady_py_get steady_url_of
  steady_user_agent steady_raise_for_status steady_sleep steady_write_file
  steady_http : steady.

(** Walks through a body built from [bind], [try_except] and case
    distinctions, closing the leaves from the hint database. *)
Ltac steady_walk :=
  repeat first
    [ solve [auto with steady]
    | apply steady_bind; [| intros ?]
    | apply steady_try_except;
      [| let e := fresh "e" in let k := fresh "k" in let He := fresh "He" in
         intros e k He; destruct e; inversion He; subst; clear He ]
    | match goal with
      | |- steady (if ?b then _ else _) => destruct b
      | |- steady (match ?x with _ => _ end) => destruct x
      | |- steady (let (_, _) := ?p in _) => destruct p
      end ].

Lemma steady_upload {platform : Platform} (upload_url : json) (file_path : string)
    (additional_headers : json) :
  steady (_upload_file_to_gcs upload_url file_path additional_headers).
Proof. unfold _upload_file_to_gcs. steady_walk. Qed.

Lemma steady_create {platform : Platform} (file_path : string) (feature : json) :
  steady (_create_image_task file_path feature).
Proof.
  unfold _create_image_task, _calculate_md5_base64, _get_image_metadata.
  pose proof steady_upload. steady_walk.
Qed.

Lemma steady_ping {platform : Platform} (task_id : json) :
  steady (_ping_for_processing task_id).
Proof. unfold _ping_for_processing. steady_walk. Qed.

Lemma steady_reprocess {platform : Platform} (base_task_id feature : json) :
  steady (_reprocess_image_task base_task_id feature).
Proof. unfold _reprocess_image_task. steady_walk. Qed.

Lemma steady_poll_iteration {platform : Platform} (task_id : json) :
  steady (poll_iteration task_id).
Proof.
  unfold poll_iteration. apply steady_bind; [auto with steady | intros _].
  apply steady_bind; [auto with steady | intros c].
  apply steady_bind; [auto with steady | intros response].
  intros s s' o Hrun. pose proof (poll_verdict_state _ _ _ _ Hrun) as ->.
  split; [reflexivity |]. split; [reflexivity |]. exists []. symmetry. apply app_nil_r.
Qed.

Lemma steady_poll {platform : Platform} (fuel : nat) (task_id : json) :
  steady (_poll_status_http fuel task_id).
Proof.
  induction fuel as [|fuel IH]; cbn [_poll_status_http]; [apply steady_spin |].
  apply steady_bind; [apply steady_poll_iteration |].
  intros [v|]; [apply steady_ret | exact IH].
Qed.

Lemma steady_download (u : json) (output_path : string) :
  steady (_download_file u output_path).
Proof. unfold _download_file. steady_walk. Qed.

Lemma steady_process_common (image_path : string) (output_path : option string)
    (verbose : bool) (final_url : json) :
  steady (_process_common image_path output_path verbose final_url).
Proof.
  unfold _process_common. pose proof steady_download. steady_walk.
Qed.

(** *** Stylization *)

Lemma profile_true (s s' : State) :
  _get_user_profile s = (Ret true, s') ->
  truthy (identity_token (self s')) = true /\ is_str (identity_token (self s')) = true.
Proof.
  intros Hrun.
  destruct (truthy (identity_token (self s))) eqn:Htruthy;
    [| rewrite (profile_without_token s Htruthy) in Hrun; discriminate].
  destruct (is_str (identity_token (self s))) eqn:Hstr;
    [| rewrite (profile_blocked s Htruthy Hstr) in Hrun; discriminate].
  rewrite (profile_run s Htruthy Hstr) in Hrun. cbv zeta in Hrun.
  destruct (net (world s) (length (sent (world s)))) as [|code payload]; [discriminate |].
  destruct (is_success code); [| discriminate].
  destruct payload as [[| | | | |]| |]; try discriminate.
  injection Hrun as <-. split; assumption.
Qed.

(** After a login that returns, the client holds a token the transport can
    carry. *)
Lemma login_ret_token (s s' : State) :
  _login s = (Ret tt, s') ->
  truthy (identity_token (self s')) = true /\ is_str (identity_token (self s')) = true.
Proof.
  rewrite login_run.
  destruct (_load_identity_token s) as [[[]|e|] s1]; try discriminate.
  destruct (truthy (identity_token (self s1))).
  - destruct (_get_user_profile s1) as [[[|]|e|] s2] eqn:Hfirst; try discriminate.
    + intros [= <-]. exact (profile_true _ _ Hfirst).
    + destruct (_get_setup s2) as [[[]|e|] s3]; try discriminate.
      destruct (_get_user_profile s3) as [[[|]|e|] s4] eqn:Hsecond; try discriminate.
      intros [= <-]. exact (profile_true _ _ Hsecond).
  - destruct (_get_setup s1) as [[[]|e|] s3]; try discriminate.
    destruct (_get_user_profile s3) as [[[|]|e|] s4] eqn:Hsecond; try discriminate.
    intros [= <-]. exact (profile_true _ _ Hsecond).
Qed.

Lemma poll_verdict_value (response : Z * content) (s s' : State) (v : json) :
  poll_verdict response s = (Ret (Some v), s') -> v = JNull \/ truthy v = true.
Proof.
  destruct response as [code payload].
  unfold poll_verdict, try_except.
  destruct (code =? 404)%Z; [discriminate |].
  cbv [bind raise_for_status json_of ret py_get raise].
  destruct (is_success code); [| discriminate].
  destruct payload as [data| |]; try discriminate.
  destruct (dict_get data "status" JNull) as [st|]; [| discriminate].
  destruct st as [| | |x| |]; try discriminate.
  destruct (String.eqb x "completed").
  - unfold output_url. cbv [bind py_get ret].
    destruct (dict_get data "result" (JObj [])) as [result|]; [| discriminate].
    destruct (dict_get result "outputs" JNull) as [outputs|]; [| discriminate].
    destruct outputs as [| | | |[|first rest]|]; try (intros [= <- _]; left; reflexivity).
    destruct (dict_get first "url" JNull) as [u|]; [| discriminate].
    destruct (truthy u) eqn:Hu; intros [= <- _]; [right; exact Hu | left; reflexivity].
  - destruct (String.eqb x "failed" || String.eqb x "error");
      [destruct (dict_get data "errors" JNull) |]; discriminate.
Qed.

(** The poll returns either [None] or a URL that passes the truth test. *)
Lemma poll_value {platform : Platform} (fuel : nat) (task_id : json) (s s' : State)
    (v : json) :
  _poll_status_http fuel task_id s = (Ret v, s') -> v = JNull \/ truthy v = true.
Proof.
  revert s. induction fuel as [|fuel IH]; intros s; [discriminate |].
  rewrite poll_step.
  destruct (poll_iteration task_id s) as [[[u|]|e|] s1] eqn:Hiter; try discriminate.
  - intros [= -> ->].
    destruct (poll_iteration_ret _ _ _ _ Hiter) as [_ [code [payload [_ Hverdict]]]].
    exact (poll_verdict_value _ _ _ _ Hverdict).
  - apply IH.
Qed.

(** With a token the transport can carry, the reprocess request is sent. *)
Lemma reprocess_sends {platform : Platform} (base_task_id feature : json) (s : State) :
  (truthy (identity_token (self s)) = true -> is_str (identity_token (self s)) = true) ->
  exists o, _reprocess_image_task base_task_id feature s
            = (o, logged (reprocess_request (self s) base_task_id feature) s).
Proof.
  intros Hstr. unfold _reprocess_image_task, try_except. rewrite bind_run.
  cbn [get_self]. rewrite bind_run.
  fold (reprocess_request (self s) base_task_id feature).
  rewrite http_run by (apply common_headers_sendable, Hstr).
  destruct (net (world s) (length (sent (world s)))) as [|code payload];
    [eexists; reflexivity |].
  rewrite bind_run. unfold raise_for_status. cbn [fst snd].
  destruct (is_success code); [| eexists; reflexivity].
  cbv [ret bind]. destruct payload as [data| |]; cbv [json_of ret raise py_get];
    try (eexists; reflexivity).
  destruct (dict_get data "task_id" JNull) as [new_task_id|]; [| eexists; reflexivity].
  destruct (truthy new_task_id); eexists; reflexivity.
Qed.

(** C5: once the base task has been created, pinged and polled to the end,
    [stylize] goes one of two ways.  If the poll returned an output URL, it
    calls [_reprocess_image_task] on the base task id with the
    stylization feature whose only pipeline id is the caller's style, and
    that POST is the next request sent.  If the poll returned [None], it
    raises [ReminiError] in the state the poll left, with no further
    request. *)
Theorem stylize_reprocesses_base_task {platform : Platform} (fuel : nat)
    (image_path style : string) (output_path : option string) (verbose : bool)
    (s s1 s2 s3 s4 : State) (f : file) (base_task_id base_task_url : json) :
  fs (world s) !! image_path = Some f ->
  _login s = (Ret tt, s1) ->
  _create_image_task image_path enhance_feature s1 = (Ret base_task_id, s2) ->
  _ping_for_processing base_task_id s2 = (Ret tt, s3) ->
  _poll_status_http fuel base_task_id s3 = (Ret base_task_url, s4) ->
  let reprocess := reprocess_request (self s4) base_task_id (style_feature style) in
  (base_task_url = JNull \/ truthy base_task_url = true)
  /\ (base_task_url = JNull ->
      stylize fuel image_path style output_path verbose s
      = (Raise (ReminiError BaseTaskIncomplete), s4))
  /\ (truthy base_task_url = true ->
      stylize fuel image_path style output_path verbose s
      = (let* reprocess_task_id :=
           _reprocess_image_task base_task_id (style_feature style) in
         let* final_url := _poll_status_http fuel reprocess_task_id in
         _process_common image_path output_path verbose final_url) s4
      /\ exists (o : outcome unit) (s' : State) (rest : list request),
           stylize fuel image_path style output_path verbose s = (o, s')
           /\ requests_between s4 s' = reprocess :: rest)
  /\ url reprocess
     = REMINI_API_BASE_URL +:+ "/tasks/" +:+ py_str base_task_id +:+ "/reprocess"
  /\ body reprocess
     = Some (Json (JObj [("feature",
                          JObj [("type", JStr "stylization-v2");
                                ("pipelines", JArr [JObj [("id", JStr style)]])])])).
Proof.
  intros Hfile Hlogin Hcreate Hping Hpoll reprocess.
  assert (Hrun : stylize fuel image_path style output_path verbose s
                 = if negb (truthy base_task_url)
                   then (Raise (ReminiError BaseTaskIncomplete), s4)
                   else (let* reprocess_task_id :=
                           _reprocess_image_task base_task_id (style_feature style) in
                         let* final_url := _poll_status_http fuel reprocess_task_id in
                         _process_common image_path output_path verbose final_url) s4).
  { unfold stylize. rewrite bind_run, (path_exists_present _ _ _ Hfile). cbn [negb].
    rewrite bind_run, Hlogin, bind_run, Hcreate, bind_run, Hping, bind_run, Hpoll.
    destruct (truthy base_task_url); reflexivity. }
  split; [exact (poll_value _ _ _ _ _ Hpoll) |].
  split; [intros ->; exact Hrun |].
  split; [| split; reflexivity].
  intros Hurl. rewrite Hurl in Hrun. cbn [negb] in Hrun.
  split; [exact Hrun |]. rewrite Hrun.
  assert (Hself : self s4 = self s1).
  { destruct (steady_create _ _ _ _ _ Hcreate) as [H2 _].
    destruct (steady_ping _ _ _ _ Hping) as [H3 _].
    destruct (steady_poll _ _ _ _ _ Hpoll) as [H4 _]. congruence. }
  destruct (login_ret_token _ _ Hlogin) as [_ Hstr]. rewrite <- Hself in Hstr.
  destruct (reprocess_sends base_task_id (style_feature style) s4 (fun _ => Hstr))
    as [o1 Hsend].
  fold reprocess in Hsend. rewrite bind_run, Hsend.
  destruct o1 as [reprocess_task_id|e|].
  - destruct ((let* final_url := _poll_status_http fuel reprocess_task_id in
               _process_common image_path output_path verbose final_url)
                (logged reprocess s4)) as [o s'] eqn:Hrest.
    assert (Hsteady : steady (let* final_url := _poll_status_http fuel reprocess_task_id in
                              _process_common image_path output_path verbose final_url))
      by (apply steady_bind; [apply steady_poll | intros; apply steady_process_common]).
    destruct (Hsteady _ _ _ Hrest) as [_ [_ [rs Hlog]]].
    exists o, s', rs. split; [reflexivity |].
    apply requests_between_app. rewrite Hlog. cbn [logged world log_request sent].
    rewrite <- app_assoc. reflexivity.
  - eexists _, _, []. split; [reflexivity |]. apply requests_between_app. reflexivity.
  - eexists _, _, []. split; [reflexivity |]. apply requests_between_app. reflexivity.
Qed.

Lemma stylize_reprocesses_base_task_witness :
  let s := {| self := example_client;
              world := example_world photo_and_token stylizing_service |} in
  let s1 := snd (_login s) in
  let s2 := snd (_create_image_task (platform := example_platform)
                   "/home/u/photo.jpg" enhance_feature s1) in
  let s3 := snd (_ping_for_processing (platform := example_platform) (JStr "T1") s2) in
  let s4 := snd (_poll_status_http (platform := example_platform) 2 (JStr "T1") s3) in
  let run := stylize (platform := example_platform) 2 "/home/u/photo.jpg" "toon" None true in
  let reprocess :=
    reprocess_request (platform := example_platform) (self s4) (JStr "T1")
      (style_feature "toon") in
  (JStr "https://x/base.jpg" = JNull \/ truthy (JStr "https://x/base.jpg") = true)
  /\ (JStr "https://x/base.jpg" = JNull ->
      run s = (Raise (ReminiError BaseTaskIncomplete), s4))
  /\ (truthy (JStr "https://x/base.jpg") = true ->
      run s
      = (let* reprocess_task_id :=
           _reprocess_image_task (platform := example_platform) (JStr "T1")
             (style_feature "toon") in
         let* final_url :=
           _poll_status_http (platform := example_platform) 2 reprocess_task_id in
         _process_common "/home/u/photo.jpg" None true final_url) s4
      /\ exists (o : outcome unit) (s' : State) (rest : list request),
           run s = (o, s') /\ requests_between s4 s' = reprocess :: rest)
  /\ url reprocess = "https://a.android.api.remini.ai/v1/mobile/tasks/T1/reprocess"
  /\ body reprocess
     = Some (Json (JObj [("feature",
                          JObj [("type", JStr "stylization-v2");
                                ("pipelines", JArr [JObj [("id", JStr "toon")]])])])).
Proof.
  intros s s1 s2 s3 s4 run reprocess.
  apply (stylize_reprocesses_base_task (platform := example_platform) 2
           "/home/u/photo.jpg" "toon" None true s s1 s2 s3 s4
           (Readable (Binary "JFIF")) (JStr "T1") (JStr "https://x/base.jpg")).
  - reflexivity.
  - vm_compute. reflexivity.
  - vm_compute. reflexivity.
  - vm_compute. reflexivity.
  - vm_compute. reflexivity.
Defined.

(** The other branch on a concrete run: the base task completes without an
    output, [stylize] raises, and the last request is the poll of [T1]. *)
Example stylize_without_base_output :
  let s := {| self := example_client;
              world := example_world photo_and_token barren_service |} in
  let run := stylize (platform := example_platform) 2 "/home/u/photo.jpg" "toon" None true s in
  fst run = Raise (ReminiError BaseTaskIncomplete)
  /\ map url (sent (world (snd run)))
     = [ "https://a.android.api.remini.ai/v1/mobile/users/@me";
         "https://a.android.api.remini.ai/v1/mobile/tasks";
         "https://storage/upload/T1";
         "https://a.android.api.remini.ai/v1/mobile/tasks/T1/process";
         "https://a.android.api.remini.ai/v1/mobile/tasks/T1" ].
Proof. vm_compute. split; reflexivity. Qed.

(** *** The model on whole runs *)

(** A complete enhancement: the stale token is renewed, the task is
    created, uploaded, pinged and polled, and the artifact lands in the
    current directory. *)
Example process_renews_and_downloads :
  let service (n : nat) : reply :=
    match n with
    | 0 => Response 401 (Garbled "Unauthorized")
    | 1 => minting_answer "fresh"
    | 7 => Response 200 (Binary "PNG")
    | S (S n') => stylizing_service n'
    end in
  let s := {| self := example_client;
              world := example_world
                         (<["/tmp/remini_identity_token.json" := token_file (JStr "stale")]>
                            photo) service |} in
  let run := process (platform := example_platform) 2 "/home/u/photo.jpg" None true s in
  fst run = Ret tt
  /\ map meth (sent (world (snd run))) = [GET; GET; GET; POST; PUT; POST; GET; GET]
  /\ identity_token (self (snd run)) = JStr "fresh"
  /\ fs (world (snd run)) !! "photo_remini_20240102_030405.jpg"
     = Some (Readable (Binary "PNG"))
  /\ naps (world (snd run)) = 1.
Proof. vm_compute. repeat split; reflexivity. Qed.

(** [os.path.splitext] on the base name: a leading dot starts no
    extension, and only the last dot counts. *)
Example default_output_path_cases :
  default_output_path "/home/u/.bashrc" example_clock = ".bashrc_remini_20240102_030405"
  /\ default_output_path "shots/x.tar.gz" example_clock = "x.tar_remini_20240102_030405.gz"
  /\ default_output_path "/a.b/c" example_clock = "c_remini_20240102_030405".
Proof. vm_compute. repeat split; reflexivity. Qed.

(** ** Further properties of the client *)

(** *** Relations kept along a run *)

Section Respects.
Context (R : relation State) `{!PreOrder R}.

Lemma respects_here {A : Type} (m : M A) :
  (forall s, exists o, m s = (o, s)) -> respects R m.
Proof.
  intros Hm s s' o Hrun. destruct (Hm s) as [o' Ho'].
  rewrite Ho' in Hrun. injection Hrun as _ <-. reflexivity.
Qed.

Lemma respects_bind {A B : Type} (m : M A) (k : A -> M B) :
  respects R m -> (forall a, respects R (k a)) -> respects R (bind m k).
Proof.
  intros Hm Hk s s' o. rewrite bind_run.
  destruct (m s) as [[a|e|] s1] eqn:Hrun; specialize (Hm _ _ _ Hrun).
  - intros Hrest. etransitivity; [exact Hm | exact (Hk a _ _ _ Hrest)].
  - intros [= _ <-]. exact Hm.
  - intros [= _ <-]. exact Hm.
Qed.

Lemma respects_try_except {A : Type} (m : M A) (h : exn -> option (M A)) :
  respects R m -> (forall e k, h e = Some k -> respects R k) ->
  respects R (try_except m h).
Proof.
  intros Hm Hh s s' o. unfold try_except.
  destruct (m s) as [[a|e|] s1] eqn:Hrun; specialize (Hm _ _ _ Hrun).
  - intros [= _ <-]. exact Hm.
  - destruct (h e) as [k|] eqn:He.
    + intros Hrest. etransitivity; [exact Hm | exact (Hh e k He _ _ _ Hrest)].
    + intros [= _ <-]. exact Hm.
  - intros [= _ <-]. exact Hm.
Qed.

Lemma respects_ret {A : Type} (a : A) : respects R (ret a).
Proof. apply respects_here. intros s. eexists. reflexivity. Qed.

Lemma respects_raise {A : Type} (e : exn) : respects R (raise (A := A) e).
Proof. apply respects_here. intros s. eexists. reflexivity. Qed.

Lemma respects_spin {A : Type} : respects R (fun s => (@Spin A, s)).
Proof. apply respects_here. intros s. eexists. reflexivity. Qed.

Lemma respects_get_self : respects R get_self.
Proof. apply respects_here. intros s. eexists. reflexivity. Qed.

Lemma respects_get_world : respects R get_world.
Proof. apply respects_here. intros s. eexists. reflexivity. Qed.

Lemma respects_path_exists (path : string) : respects R (path_exists path).
Proof. apply respects_here. intros s. eexists. reflexivity. Qed.

Lemma respects_read_file (path : string) : respects R (read_file path).
Proof.
  apply respects_here. intros s. unfold read_file.
  destruct (fs (world s) !! path) as [[|c]|]; eexists; reflexivity.
Qed.

Lemma respects_json_of (c : content) : respects R (json_of c).
Proof. destruct c; [apply respects_ret | apply respects_raise | apply respects_raise]. Qed.

Lemma respects_py_get (v : json) (k : string) (d : json) : respects R (py_get v k d).
Proof.
  unfold py_get. destruct (dict_get v k d); [apply respects_ret | apply respects_raise].
Qed.

Lemma respects_url_of (v : json) : respects R (url_of v).
Proof. destruct v; first [apply respects_ret | apply respects_raise]. Qed.

Lemma respects_user_agent (c : Remini) : respects R (user_agent c).
Proof.
  unfold user_agent.
  destruct (_android_headers c !! "user-agent"); [apply respects_ret | apply respects_raise].
Qed.

Lemma respects_raise_for_status (code : Z) : respects R (raise_for_status code).
Proof.
  unfold raise_for_status.
  destruct (is_success code); [apply respects_ret | apply respects_raise].
Qed.

Lemma respects_poll_verdict (response : Z * content) : respects R (poll_verdict response).
Proof. intros s s' o Hrun. rewrite (poll_verdict_state _ _ _ _ Hrun). reflexivity. Qed.
End Respects.

#[local] Hint Resolve respects_ret respects_raise respects_spin respects_get_self
  respects_get_world respects_path_exists respects_read_file respects_json_of
  respects_py_get respects_url_of respects_user_agent respects_raise_for_status
  respects_poll_verdict : respects.

Ltac respects_walk :=
  repeat first
    [ solve [auto with respects typeclass_instances]
    | apply respects_bind; [typeclasses eauto | | intros ?]
    | apply respects_try_except;
      [typeclasses eauto | |
       let e := fresh "e" in let k := fresh "k" in let He := fresh "He" in
       intros e k He; destruct e; inversion He; subst; clear He ]
    | match goal with
      | |- respects _ (if ?b then _ else _) => destruct b
      | |- respects _ (match ?x with _ => _ end) => destruct x
      | |- respects _ (let (_, _) := ?p in _) => destruct p
      end ].

#[local] Instance undisturbed_preorder : PreOrder undisturbed.
Proof.
  split.
  - intros s. repeat split.
  - intros s1 s2 s3 [Hc1 [Hf1 [Hn1 Hk1]]] [Hc2 [Hf2 [Hn2 Hk2]]].
    repeat split; congruence.
Qed.

#[local] Instance continues_preorder : PreOrder continues.
Proof.
  split.
  - intros s. repeat split. exists []. symmetry. apply app_nil_r.
  - intros s1 s2 s3 [Hp1 [Hn1 [Hk1 [rs1 Hl1]]]] [Hp2 [Hn2 [Hk2 [rs2 Hl2]]]].
    split; [congruence |]. split; [congruence |]. split; [congruence |].
    exists (rs1 ++ rs2). rewrite Hl2, Hl1. symmetry. apply app_assoc.
Qed.

Lemma undisturbed_http (r : request) : respects undisturbed (http r).
Proof.
  intros s s' o. unfold http. destruct (sendable (headers r)).
  - destruct (net (world s) (length (sent (world s)))) as [|code payload];
      intros [= _ <-]; repeat split.
  - intros [= _ <-]. repeat split.
Qed.

Lemma undisturbed_sleep : respects undisturbed sleep.
Proof. intros s s' o [= _ <-]. repeat split. Qed.

Lemma continues_http (r : request) : respects continues (http r).
Proof.
  intros s s' o. unfold http. destruct (sendable (headers r)).
  - destruct (net (world s) (length (sent (world s)))) as [|code payload];
      intros [= _ <-]; repeat split; exists [r]; reflexivity.
  - intros [= _ <-]. reflexivity.
Qed.

Lemma continues_sleep : respects continues sleep.
Proof.
  intros s s' o [= _ <-]. repeat split. exists []. symmetry. apply app_nil_r.
Qed.

Lemma continues_write_file (path : string) (c : content) :
  respects continues (write_file path c).
Proof.
  intros s s' o [= _ <-]. repeat split. exists []. symmetry. apply app_nil_r.
Qed.

Lemma continues_set_identity_token (v : json) : respects continues (set_identity_token v).
Proof.
  intros s s' o [= _ <-]. repeat split. exists []. symmetry. apply app_nil_r.
Qed.

#[local] Hint Resolve undisturbed_http undisturbed_sleep continues_http continues_sleep
  continues_write_file continues_set_identity_token : respects.

Lemma undisturbed_profile : respects undisturbed _get_user_profile.
Proof. unfold _get_user_profile. respects_walk. Qed.

Lemma undisturbed_upload {platform : Platform} (upload_url : json) (file_path : string)
    (additional_headers : json) :
  respects undisturbed (_upload_file_to_gcs upload_url file_path additional_headers).
Proof. unfold _upload_file_to_gcs. respects_walk. Qed.

Lemma undisturbed_create {platform : Platform} (file_path : string) (feature : json) :
  respects undisturbed (_create_image_task file_path feature).
Proof.
  unfold _create_image_task, _calculate_md5_base64, _get_image_metadata.
  pose proof undisturbed_upload. respects_walk.
Qed.

Lemma undisturbed_ping {platform : Platform} (task_id : json) :
  respects undisturbed (_ping_for_processing task_id).
Proof. unfold _ping_for_processing. respects_walk. Qed.

Lemma undisturbed_reprocess {platform : Platform} (base_task_id feature : json) :
  respects undisturbed (_reprocess_image_task base_task_id feature).
Proof. unfold _reprocess_image_task. respects_walk. Qed.

Lemma undisturbed_poll {platform : Platform} (fuel : nat) (task_id : json) :
  respects undisturbed (_poll_status_http fuel task_id).
Proof.
  induction fuel as [|fuel IH]; cbn [_poll_status_http]; [apply respects_spin; apply _ |].
  unfold poll_iteration. respects_walk.
Qed.

Lemma continues_login : respects continues _login.
Proof.
  unfold _login, _load_identity_token, _get_user_profile, _get_setup, _save_identity_token.
  respects_walk.
Qed.

(** *** The session manager, beyond the claims *)

Lemma substring_length (n : nat) (p : string) :
  String.length (String.substring 0 n p) = Nat.min n (String.length p).
Proof.
  revert p. induction n as [|n IH]; intros [|c r]; cbn; try reflexivity.
  f_equal. apply IH.
Qed.

Lemma truthy_str_nonempty (t : string) : truthy (JStr t) = true -> t <> "".
Proof. cbn. destruct (String.eqb_spec t ""); [discriminate | intros _; assumption]. Qed.

Lemma login_bootstrap_first_request (s s2 : State) :
  needs_bootstrap s s2 ->
  exists (o : outcome unit) (s' : State) (rest : list request),
    _login s = (o, s')
    /\ requests_between s2 s' = setup_request (self s2) (world s2) :: rest.
Proof.
  intros Hneed. pose proof (login_after_bootstrap s s2 Hneed) as Hrun. cbv zeta in Hrun.
  destruct (minted_token _) as [token|].
  - destruct (is_str token).
    + destruct Hrun as [o [Hrun _]]. eexists o, _, [_]. split; [exact Hrun |].
      apply requests_between_app. cbn [world log_request with_file sent].
      rewrite <- app_assoc. reflexivity.
    + eexists _, _, []. split; [exact Hrun |]. apply requests_between_app. reflexivity.
  - destruct Hrun as [e Hrun]. eexists _, _, []. split; [exact Hrun |].
    apply requests_between_app. reflexivity.
Qed.

(** A new client with no cache file starts [_login] with the bootstrap
    request, and that request carries no session token; it carries the
    device identifiers drawn at construction, the backup id being the
    android id followed by the application name. *)
Theorem fresh_client_bootstraps_without_token (path hex uuid2 uuid3 : string) (w : World) :
  fs w !! path = None ->
  let c := __init__ path hex uuid2 uuid3 in
  let s := {| self := c; world := w |} in
  let setup := setup_request c w in
  (exists (o : outcome unit) (s' : State) (rest : list request),
     _login s = (o, s') /\ requests_between s s' = setup :: rest)
  /\ headers setup !! "identity-token" = None
  /\ headers setup !! "android-id" = Some (JStr (String.substring 0 16 hex))
  /\ headers setup !! "backup-persistent-id"
     = Some (JStr (String.substring 0 16 hex +:+ "_com.bigwinepot.nwdn.international"))
  /\ headers setup !! "aaid" = Some (JStr uuid2)
  /\ headers setup !! "non-backup-persistent-id" = Some (JStr uuid3)
  /\ headers setup !! "first-install-timestamp" = Some (JStr (install_stamp w))
  /\ (16 <= String.length hex -> String.length (String.substring 0 16 hex) = 16).
Proof.
  intros Hnone c s setup.
  split; [| repeat split; try reflexivity; intros Hlen; rewrite substring_length; lia].
  apply (login_bootstrap_first_request s s).
  exists s. split; [| left; split; reflexivity].
  rewrite load_run. cbn [s c self world __init__ token_path]. rewrite Hnone. reflexivity.
Qed.

Lemma fresh_client_bootstraps_without_token_witness :
  let w := example_world photo failing_service in
  let s := {| self := example_client; world := w |} in
  let setup := setup_request example_client w in
  (exists (o : outcome unit) (s' : State) (rest : list request),
     _login s = (o, s') /\ requests_between s s' = setup :: rest)
  /\ headers setup !! "identity-token" = None
  /\ headers setup !! "android-id" = Some (JStr "0123456789abcdef")
  /\ headers setup !! "backup-persistent-id"
     = Some (JStr "0123456789abcdef_com.bigwinepot.nwdn.international")
  /\ headers setup !! "aaid" = Some (JStr "11111111-2222-4333-8444-555555555555")
  /\ headers setup !! "non-backup-persistent-id"
     = Some (JStr "66666666-7777-4888-9999-aaaaaaaaaaaa")
  /\ headers setup !! "first-install-timestamp" = Some (JStr "1704164645E9")
  /\ (16 <= 32 -> String.length "0123456789abcdef" = 16).
Proof.
  intros w s setup.
  exact (fresh_client_bootstraps_without_token "/tmp/remini_identity_token.json"
           "0123456789abcdef0123456789abcdef" "11111111-2222-4333-8444-555555555555"
           "66666666-7777-4888-9999-aaaaaaaaaaaa" w eq_refl).
Defined.

Lemma setup_headers_blocked (c : Remini) (w : World) :
  truthy (identity_token c) = true -> is_str (identity_token c) = false ->
  sendable (setup_headers c w) = false.
Proof.
  intros Htruthy Hstr. unfold sendable. apply bool_decide_eq_false_2. intros Hall.
  specialize (Hall _ _ (setup_headers_token c w Htruthy)). cbn beta in Hall. congruence.
Qed.

(** Every way [_get_setup] can end: it raises with the client and the files
    as they were, or it returns with the minted token in the client and in
    the token file. *)
Lemma setup_cases (s s' : State) (o : outcome unit) :
  _get_setup s = (o, s') ->
  (exists e, o = Raise e /\ self s' = self s /\ fs (world s') = fs (world s))
  \/ (o = Ret tt
      /\ exists token,
           minted_token (net (world s) (length (sent (world s)))) = Some token
           /\ self s' = with_token (self s) token
           /\ fs (world s') = <[token_path (self s) := token_file token]> (fs (world s))).
Proof.
  destruct (truthy (identity_token (self s))) eqn:Htruthy;
    [destruct (is_str (identity_token (self s))) eqn:Hstr |].
  2: { unfold _get_setup. rewrite bind_run. cbn [get_self]. rewrite bind_run.
       cbn [get_world]. unfold try_except. rewrite bind_run.
       rewrite http_blocked by (apply setup_headers_blocked; assumption).
       intros [= <- <-]. left. eauto. }
  all: rewrite setup_run by (intros; congruence); cbv zeta; unfold minted_token;
    destruct (net (world s) (length (sent (world s)))) as [|code payload];
    [intros [= <- <-]; left; eauto |];
    destruct (is_success code);
    [| destruct payload; intros [= <- <-]; left; eauto];
    destruct payload as [data| |]; try (intros [= <- <-]; left; eauto; fail);
    destruct (setup_token data) as [token|]; [| intros [= <- <-]; left; eauto];
    destruct (truthy token); intros [= <- <-]; [right | left]; eauto 6.
Qed.

(** Every way [_load_identity_token] can return. *)
Lemma load_cases (s s1 : State) :
  _load_identity_token s = (Ret tt, s1) ->
  world s1 = world s
  /\ token_path (self s1) = token_path (self s)
  /\ ((fs (world s) !! token_path (self s) = None /\ s1 = s)
      \/ (exists doc,
            fs (world s) !! token_path (self s) = Some (Readable (Json doc))
            /\ dict_get doc "identity_token" JNull = Some (identity_token (self s1)))
      \/ identity_token (self s1) = JNull).
Proof.
  rewrite load_run.
  destruct (fs (world s) !! token_path (self s)) as [[|[doc|text|bytes]]|] eqn:Hfile;
    try discriminate.
  - intros [= <-]. repeat split. right. right. reflexivity.
  - destruct (dict_get doc "identity_token" JNull) as [tok|] eqn:Hdoc; [| discriminate].
    intros [= <-]. repeat split. right. left. exists doc. split; [reflexivity | exact Hdoc].
  - intros [= <-]. repeat split. right. right. reflexivity.
  - intros [= <-]. repeat split. left. split; reflexivity.
Qed.

(** After a login that returns, the client holds a non-empty string token,
    and the cache agrees with it: the token file is a JSON object whose
    [identity_token] is that token.  The one exception is a client that
    already held the token and whose cache file is absent: the probe
    accepted the token in memory and no file was written. *)
Theorem login_leaves_cache_in_step (s s' : State) :
  _login s = (Ret tt, s') ->
  exists t,
    identity_token (self s') = JStr t
    /\ t <> ""
    /\ ((exists doc,
           fs (world s') !! token_path (self s') = Some (Readable (Json doc))
           /\ dict_get doc "identity_token" JNull = Some (JStr t))
        \/ (fs (world s') !! token_path (self s') = None
            /\ identity_token (self s) = JStr t)).
Proof.
  intros Hlogin.
  destruct (login_ret_token _ _ Hlogin) as [Htruthy Hstr].
  destruct (identity_token (self s')) as [| | |t| |] eqn:Htok; try discriminate.
  exists t. split; [reflexivity |]. split; [exact (truthy_str_nonempty t Htruthy) |].
  rewrite login_run in Hlogin.
  destruct (_load_identity_token s) as [[[]|e|] s1] eqn:Hload; try discriminate.
  destruct (load_cases _ _ Hload) as [Hworld [Hpath Hcases]].
  assert (Hboot : forall s2 : State,
            match _get_setup s2 with
            | (Ret _, s3) =>
                match _get_user_profile s3 with
                | (Ret true, s4) => (Ret tt, s4)
                | (Ret false, s4) => (Raise (ReminiError ActivationFailed), s4)
                | (Raise e, s4) => (Raise e, s4)
                | (Spin, s4) => (Spin, s4)
                end
            | (Raise e, s3) => (Raise e, s3)
            | (Spin, s3) => (Spin, s3)
            end = (Ret tt, s') ->
            exists doc,
              fs (world s') !! token_path (self s') = Some (Readable (Json doc))
              /\ dict_get doc "identity_token" JNull = Some (JStr t)).
  { intros s2 Hrun.
    destruct (_get_setup s2) as [[[]|e|] s3] eqn:Hsetup; try discriminate.
    destruct (setup_cases _ _ _ Hsetup) as [[e [He _]] | [_ [token [_ [Hself Hfs]]]]];
      [discriminate |].
    destruct (_get_user_profile s3) as [[[|]|e|] s4] eqn:Hprobe; try discriminate.
    injection Hrun as <-.
    destruct (undisturbed_profile _ _ _ Hprobe) as [Hself4 [Hfs4 _]].
    exists (JObj [("identity_token", token)]).
    rewrite Hfs4, Hself4, Hfs, Hself. cbn [with_token token_path].
    rewrite lookup_insert_eq. split; [reflexivity |].
    cbn. f_equal. rewrite <- Htok, Hself4, Hself. reflexivity. }
  destruct (truthy (identity_token (self s1))) eqn:Htruthy1.
  - destruct (_get_user_profile s1) as [[[|]|e|] s2] eqn:Hprobe; try discriminate.
    + injection Hlogin as <-.
      destruct (undisturbed_profile _ _ _ Hprobe) as [Hself2 [Hfs2 _]].
      rewrite Hfs2, Hself2, Hworld, Hpath.
      destruct Hcases as [[Hnone ->] | [[doc [Hfile Hdoc]] | Hnull]].
      * right. split; [exact Hnone |]. rewrite <- Htok, Hself2. reflexivity.
      * left. exists doc. split; [exact Hfile |]. rewrite Hdoc, <- Htok, Hself2. reflexivity.
      * rewrite Hnull in Htruthy1. discriminate.
    + left. exact (Hboot s2 Hlogin).
  - left. exact (Hboot s1 Hlogin).
Qed.

Lemma login_leaves_cache_in_step_witness :
  let s := {| self := example_client;
              world := example_world (cached "stale") renewing_service |} in
  exists t,
    identity_token (self (snd (_login s))) = JStr t
    /\ t <> ""
    /\ ((exists doc,
           fs (world (snd (_login s))) !! token_path (self (snd (_login s)))
           = Some (Readable (Json doc))
           /\ dict_get doc "identity_token" JNull = Some (JStr t))
        \/ (fs (world (snd (_login s))) !! token_path (self (snd (_login s))) = None
            /\ identity_token (self s) = JStr t)).
Proof.
  intros s. apply (login_leaves_cache_in_step s (snd (_login s))).
  vm_compute. reflexivity.
Defined.

Lemma load_world (s s1 : State) (o : outcome unit) :
  _load_identity_token s = (o, s1) -> world s1 = world s.
Proof.
  rewrite load_run.
  destruct (fs (world s) !! token_path (self s)) as [[|[v|text|bytes]]|];
    try (intros [= _ <-]; reflexivity).
  destruct (dict_get v "identity_token" JNull); intros [= _ <-]; reflexivity.
Qed.

(** How [_login] can leave the files, whatever its outcome. *)
Lemma login_fs_cases (s s' : State) (o : outcome unit) :
  _login s = (o, s') ->
  fs (world s') = fs (world s)
  \/ exists token n,
       minted_token (net (world s) n) = Some token
       /\ identity_token (self s') = token
       /\ fs (world s') = <[token_path (self s) := token_file token]> (fs (world s)).
Proof.
  rewrite login_run.
  destruct (_load_identity_token s) as [o1 s1] eqn:Hload.
  pose proof (load_world _ _ _ Hload) as Hworld.
  pose proof (load_token_path _ _ _ Hload) as Hpath.
  assert (Hboot : forall s2 : State,
            self s2 = self s1 -> fs (world s2) = fs (world s1) ->
            net (world s2) = net (world s1) ->
            match _get_setup s2 with
            | (Ret _, s3) =>
                match _get_user_profile s3 with
                | (Ret true, s4) => (Ret tt, s4)
                | (Ret false, s4) => (Raise (ReminiError ActivationFailed), s4)
                | (Raise e, s4) => (Raise e, s4)
                | (Spin, s4) => (Spin, s4)
                end
            | (Raise e, s3) => (Raise e, s3)
            | (Spin, s3) => (Spin, s3)
            end = (o, s') ->
            fs (world s') = fs (world s)
            \/ exists token n,
                 minted_token (net (world s) n) = Some token
                 /\ identity_token (self s') = token
                 /\ fs (world s') = <[token_path (self s) := token_file token]> (fs (world s))).
  { intros s2 Hself2 Hfs2 Hnet2 Hrun.
    destruct (_get_setup s2) as [o3 s3] eqn:Hsetup.
    destruct (setup_cases _ _ _ Hsetup)
      as [[e [-> [_ Hfs3]]] | [-> [token [Hmint [Hself3 Hfs3]]]]].
    - injection Hrun as _ <-. left. congruence.
    - assert (Hend : self s' = self s3 /\ fs (world s') = fs (world s3)).
      { destruct (_get_user_profile s3) as [[[|]|e|] s4] eqn:Hprobe;
          injection Hrun as _ <-;
          destruct (undisturbed_profile _ _ _ Hprobe) as [H4 [Hf4 _]]; split; assumption. }
      destruct Hend as [Hself' Hfs'].
      right. exists token, (length (sent (world s2))).
      split; [rewrite <- Hworld, <- Hnet2; exact Hmint |].
      split; [rewrite Hself', Hself3; reflexivity |].
      rewrite Hfs', Hfs3, Hself2, Hpath, Hfs2, Hworld. reflexivity. }
  destruct o1 as [[]|e|]; try (intros [= _ <-]; left; congruence).
  destruct (truthy (identity_token (self s1))).
  - destruct (_get_user_profile s1) as [[[|]|e|] s2] eqn:Hprobe;
      destruct (undisturbed_profile _ _ _ Hprobe) as [Hself2 [Hfs2 [Hnet2 _]]];
      try (intros [= _ <-]; left; congruence).
    apply Hboot; assumption.
  - apply Hboot; reflexivity.
Qed.

(** The only file [_login] ever writes is the token file, and only to store
    a token that an answer of the service minted; however it ends, the
    other files are as they were. *)
Theorem login_writes_only_minted_token (s s' : State) (o : outcome unit) :
  _login s = (o, s') ->
  fs (world s') = fs (world s)
  \/ exists token n,
       minted_token (net (world s) n) = Some token
       /\ identity_token (self s') = token
       /\ fs (world s') = <[token_path (self s) := token_file token]> (fs (world s)).
Proof. apply login_fs_cases. Qed.

Lemma login_writes_only_minted_token_witness :
  let s := {| self := example_client;
              world := example_world (cached "stale") renewing_service |} in
  fs (world (snd (_login s))) = fs (world s)
  \/ exists token n,
       minted_token (net (world s) n) = Some token
       /\ identity_token (self (snd (_login s))) = token
       /\ fs (world (snd (_login s)))
          = <[token_path (self s) := token_file token]> (fs (world s)).
Proof.
  intros s. apply (login_writes_only_minted_token s (snd (_login s)) (fst (_login s))).
  destruct (_login s); reflexivity.
Defined.




(** *** The status poller, beyond the claims *)

Lemma polled_succ {platform : Platform} (k : nat) (task_id : json) (s : State) :
  polled k task_id (logged (poll_request (self s) task_id) (napped s))
  = polled (S k) task_id s.
Proof.
  unfold polled. cbn [logged napped self world log_request with_nap
                      fs net sent naps install_stamp clock replicate].
  rewrite <- app_assoc, Nat.add_succ_r. reflexivity.
Qed.

Lemma polled_one {platform : Platform} (task_id : json) (s : State) :
  logged (poll_request (self s) task_id) (napped s) = polled 1 task_id s.
Proof. reflexivity. Qed.

(** One iteration whose request can be sent, in terms of the answer. *)
Lemma poll_answered {platform : Platform} (fuel : nat) (task_id : json) (s : State)
    (code : Z) (payload : content) :
  (truthy (identity_token (self s)) = true -> is_str (identity_token (self s)) = true) ->
  net (world s) (length (sent (world s))) = Response code payload ->
  _poll_status_http (S fuel) task_id s =
  match poll_verdict (code, payload) (polled 1 task_id s) with
  | (Ret (Some v), s1) => (Ret v, s1)
  | (Ret None, s1) => _poll_status_http fuel task_id s1
  | (Raise e, s1) => (Raise e, s1)
  | (Spin, s1) => (Spin, s1)
  end.
Proof.
  intros Hstr Hnet. rewrite poll_step, poll_iteration_run. cbv zeta.
  replace (sendable (headers (poll_request (self s) task_id))) with true
    by (symmetry; apply common_headers_sendable, Hstr).
  rewrite Hnet, polled_one. reflexivity.
Qed.

(** When the service reports the task as ["failed"] or ["error"], the poll
    raises [ReminiError] with the [errors] value of that answer ([None] when
    the answer has none), after one sleep and one request. *)
Theorem poll_raises_on_failed_task {platform : Platform} (fuel : nat) (task_id : json)
    (s : State) (code : Z) (fields : list (string * json)) (st : string) :
  (truthy (identity_token (self s)) = true -> is_str (identity_token (self s)) = true) ->
  net (world s) (length (sent (world s))) = Response code (Json (JObj fields)) ->
  is_success code = true ->
  assoc "status" fields = Some (JStr st) ->
  st = "failed" \/ st = "error" ->
  _poll_status_http (S fuel) task_id s
  = (Raise (ReminiError (TaskFailed (default JNull (assoc "errors" fields)))),
     polled 1 task_id s).
Proof.
  intros Hstr Hnet Hcode Hstatus Hst.
  rewrite (poll_answered fuel task_id s _ _ Hstr Hnet).
  unfold poll_verdict, try_except.
  destruct (code =? 404)%Z eqn:H404.
  { apply Z.eqb_eq in H404. subst code. discriminate Hcode. }
  cbv [bind raise_for_status json_of ret py_get dict_get raise]. rewrite Hcode, Hstatus.
  destruct Hst as [-> | ->]; reflexivity.
Qed.

Lemma poll_raises_on_failed_task_witness :
  let service (n : nat) : reply :=
    Response 200 (Json (JObj [("status", JStr "failed");
                              ("errors", JArr [JStr "face not found"])])) in
  let s := {| self := with_token example_client (JStr "eyJhbGciOi");
              world := example_world ∅ service |} in
  _poll_status_http (platform := example_platform) 3 (JStr "T1") s
  = (Raise (ReminiError (TaskFailed (JArr [JStr "face not found"]))),
     polled (platform := example_platform) 1 (JStr "T1") s).
Proof.
  intros service s.
  apply (poll_raises_on_failed_task (platform := example_platform) 2 (JStr "T1") s 200
           [("status", JStr "failed"); ("errors", JArr [JStr "face not found"])] "failed").
  - reflexivity.
  - reflexivity.
  - reflexivity.
  - reflexivity.
  - left. reflexivity.
Defined.

(** An error status other than 404 ends the poll at once with
    [ReminiError], whatever the body says. *)
Theorem poll_raises_on_http_error {platform : Platform} (fuel : nat) (task_id : json)
    (s : State) (code : Z) (payload : content) :
  (truthy (identity_token (self s)) = true -> is_str (identity_token (self s)) = true) ->
  net (world s) (length (sent (world s))) = Response code payload ->
  is_success code = false ->
  code <> 404%Z ->
  _poll_status_http (S fuel) task_id s
  = (Raise (ReminiError (PollingFailed code)), polled 1 task_id s).
Proof.
  intros Hstr Hnet Hcode H404.
  rewrite (poll_answered fuel task_id s _ _ Hstr Hnet).
  unfold poll_verdict, try_except.
  destruct (Z.eqb_spec code 404); [contradiction |].
  cbv [bind raise_for_status raise]. rewrite Hcode. reflexivity.
Qed.

Lemma poll_raises_on_http_error_witness :
  let service (n : nat) : reply :=
    Response 500 (Json (JObj [("status", JStr "processing")])) in
  let s := {| self := with_token example_client (JStr "eyJhbGciOi");
              world := example_world ∅ service |} in
  _poll_status_http (platform := example_platform) 3 (JStr "T1") s
  = (Raise (ReminiError (PollingFailed 500)),
     polled (platform := example_platform) 1 (JStr "T1") s).
Proof.
  intros service s.
  apply (poll_raises_on_http_error (platform := example_platform) 2 (JStr "T1") s 500
           (Json (JObj [("status", JStr "processing")]))).
  - reflexivity.
  - reflexivity.
  - reflexivity.
  - discriminate.
Defined.

(** On a ["completed"] answer the poll returns the [url] of the first
    output and ignores the others; without a [result], without [outputs]
    or with an empty list of outputs it returns [None]. *)
Theorem poll_returns_first_output {platform : Platform} (fuel : nat) (task_id : json)
    (s : State) (code : Z) (fields : list (string * json)) :
  (truthy (identity_token (self s)) = true -> is_str (identity_token (self s)) = true) ->
  net (world s) (length (sent (world s))) = Response code (Json (JObj fields)) ->
  is_success code = true ->
  assoc "status" fields = Some (JStr "completed") ->
  (forall result first others u,
     assoc "result" fields = Some (JObj result) ->
     assoc "outputs" result = Some (JArr (JObj first :: others)) ->
     assoc "url" first = Some u ->
     truthy u = true ->
     _poll_status_http (S fuel) task_id s = (Ret u, polled 1 task_id s))
  /\ (assoc "result" fields = None
      \/ (exists result,
            assoc "result" fields = Some (JObj result)
            /\ (assoc "outputs" result = None
                \/ assoc "outputs" result = Some (JArr []))) ->
      _poll_status_http (S fuel) task_id s = (Ret JNull, polled 1 task_id s)).
Proof.
  intros Hstr Hnet Hcode Hstatus.
  assert (Hrun : _poll_status_http (S fuel) task_id s
                 = match output_url (JObj fields) (polled 1 task_id s) with
                   | (Ret u, s1) => (Ret u, s1)
                   | (Raise e, s1) => (Raise e, s1)
                   | (Spin, s1) => (Spin, s1)
                   end).
  { rewrite (poll_answered fuel task_id s _ _ Hstr Hnet).
    unfold poll_verdict, try_except.
    destruct (code =? 404)%Z eqn:H404.
    { apply Z.eqb_eq in H404. subst code. discriminate Hcode. }
    cbv [bind raise_for_status json_of ret py_get dict_get]. rewrite Hcode, Hstatus.
    cbn [String.eqb Ascii.eqb Bool.eqb].
    destruct (output_url (JObj fields) (polled 1 task_id s)) as [[u|e|] s1]; reflexivity. }
  rewrite Hrun. unfold output_url. cbv [bind py_get dict_get ret].
  split.
  - intros result first others u -> -> -> ->. reflexivity.
  - intros [-> | [result [-> [-> | ->]]]]; reflexivity.
Qed.

Lemma poll_returns_first_output_witness :
  let answer :=
    [("status", JStr "completed");
     ("result", JObj [("outputs", JArr [JObj [("url", JStr "https://x/a.jpg")];
                                        JObj [("url", JStr "https://x/b.jpg")]])])] in
  let s := {| self := with_token example_client (JStr "eyJhbGciOi");
              world := example_world ∅ (fun _ => Response 200 (Json (JObj answer))) |} in
  _poll_status_http (platform := example_platform) 1 (JStr "T1") s
  = (Ret (JStr "https://x/a.jpg"), polled (platform := example_platform) 1 (JStr "T1") s).
Proof.
  intros answer s.
  refine (proj1 (poll_returns_first_output (platform := example_platform) 0 (JStr "T1") s
                   200 answer _ _ _ _)
            [("outputs", JArr [JObj [("url", JStr "https://x/a.jpg")];
                               JObj [("url", JStr "https://x/b.jpg")]])]
            [("url", JStr "https://x/a.jpg")]
            [JObj [("url", JStr "https://x/b.jpg")]]
            (JStr "https://x/a.jpg") _ _ _ _); reflexivity.
Defined.

(** As long as the answers are pending, the loop neither returns nor
    raises: after [k] pending answers it has slept [k] times, sent the same
    status request [k] times, and is about to go round again.  There is no
    bound: this holds for every [k]. *)
Theorem poll_goes_round_while_pending {platform : Platform} (k fuel : nat)
    (task_id : json) (s : State) :
  (truthy (identity_token (self s)) = true -> is_str (identity_token (self s)) = true) ->
  (forall i, i < k -> pending (net (world s) (length (sent (world s)) + i))) ->
  _poll_status_http (k + fuel) task_id s
  = _poll_status_http fuel task_id (polled k task_id s)
  /\ _poll_status_http k task_id s = (Spin, polled k task_id s).
Proof.
  intros Hstr Hpending.
  assert (Hgo : forall fuel', _poll_status_http (k + fuel') task_id s
                              = _poll_status_http fuel' task_id (polled k task_id s)).
  { clear fuel. revert s Hstr Hpending. induction k as [|k IH]; intros s Hstr Hpending fuel'.
    - cbn [Nat.add]. f_equal. unfold polled. destruct s as [c [? ? ? ? ? ?]].
      cbn. rewrite app_nil_r. reflexivity.
    - destruct (Hpending 0 ltac:(lia)) as [code [payload [Hnet Hopen]]].
      rewrite Nat.add_0_r in Hnet. cbn [Nat.add].
      rewrite (poll_continues (k + fuel') task_id s code payload Hstr Hnet Hopen).
      rewrite IH.
      + rewrite polled_succ. reflexivity.
      + exact Hstr.
      + intros i Hi. cbn [napped logged world self with_nap log_request net sent].
        rewrite length_app. cbn [length].
        replace (length (sent (world s)) + 1 + i) with (length (sent (world s)) + S i)
          by lia.
        apply Hpending. lia. }
  split; [apply Hgo |].
  specialize (Hgo 0). rewrite Nat.add_0_r in Hgo. rewrite Hgo. reflexivity.
Qed.

Lemma poll_goes_round_while_pending_witness :
  let s := {| self := with_token example_client (JStr "eyJhbGciOi");
              world := example_world ∅ slow_service |} in
  let poll := _poll_status_http (platform := example_platform) in
  poll (3 + 1) (JStr "T1") s
  = poll 1 (JStr "T1") (polled (platform := example_platform) 3 (JStr "T1") s)
  /\ poll 3 (JStr "T1") s = (Spin, polled (platform := example_platform) 3 (JStr "T1") s).
Proof.
  intros s poll.
  apply (poll_goes_round_while_pending (platform := example_platform) 3 1 (JStr "T1") s).
  - reflexivity.
  - intros i Hi.
    destruct i as [|[|[|i]]]; [| | | lia].
    + exists 404%Z, (Garbled "Not Found"). split; [reflexivity | left; reflexivity].
    + exists 404%Z, (Garbled "Not Found"). split; [reflexivity | left; reflexivity].
    + exists 200%Z, (Json (JObj [("status", JStr "processing")])).
      split; [reflexivity |]. right.
      exists (JObj [("status", JStr "processing")]), "processing".
      repeat split; reflexivity.
Defined.

Lemma poll_ret_polled {platform : Platform} (fuel : nat) (task_id : json)
    (s s' : State) (v : json) :
  _poll_status_http fuel task_id s = (Ret v, s') ->
  exists n, n < fuel /\ s' = polled (S n) task_id s.
Proof.
  revert s. induction fuel as [|fuel IH]; intros s; [discriminate |].
  rewrite poll_step.
  destruct (poll_iteration task_id s) as [[[u|]|e|] s1] eqn:Hiter; try discriminate.
  - intros [= _ <-]. destruct (poll_iteration_ret _ _ _ _ Hiter) as [-> _].
    exists 0. split; [lia | apply polled_one].
  - intros Hrest. destruct (poll_iteration_ret _ _ _ _ Hiter) as [-> _].
    destruct (IH _ Hrest) as [n [Hn ->]].
    exists (S n). split; [lia |]. apply polled_succ.
Qed.

(** A poll that returns has done nothing but sleep and ask: it slept once
    before each request, every request is the same status GET for the task,
    and the client and the files are as they were. *)
Theorem poll_paces_requests {platform : Platform} (fuel : nat) (task_id : json)
    (s s' : State) (v : json) :
  _poll_status_http fuel task_id s = (Ret v, s') ->
  exists n,
    n < fuel
    /\ s' = polled (S n) task_id s
    /\ requests_between s s' = replicate (S n) (poll_request (self s) task_id)
    /\ naps (world s') = S n + naps (world s).
Proof.
  intros Hrun.
  destruct (poll_ret_polled _ _ _ _ _ Hrun) as [n [Hn ->]]. exists n. split; [exact Hn |].
  split; [reflexivity |]. split; [| reflexivity].
  apply requests_between_app. reflexivity.
Qed.

Lemma poll_paces_requests_witness :
  let s := {| self := with_token example_client (JStr "eyJhbGciOi");
              world := example_world ∅ slow_service |} in
  let s' := snd (_poll_status_http (platform := example_platform) 5 (JStr "T1") s) in
  exists n,
    n < 5
    /\ s' = polled (platform := example_platform) (S n) (JStr "T1") s
    /\ requests_between s s'
       = replicate (S n) (poll_request (platform := example_platform) (self s) (JStr "T1"))
    /\ naps (world s') = S n + naps (world s).
Proof.
  intros s s'.
  apply (poll_paces_requests (platform := example_platform) 5 (JStr "T1") s s'
           (JStr "https://x/base.jpg")).
  vm_compute. reflexivity.
Defined.

(** *** Upload, trigger, reprocess and download *)

Lemma upload_run {platform : Platform} (upload_url : json) (file_path : string)
    (additional_headers : json) (s : State) :
  _upload_file_to_gcs upload_url file_path additional_headers s =
  match fs (world s) !! file_path with
  | None => (Raise (FileNotFoundError file_path), s)
  | Some Unreadable => (Raise IOError, s)
  | Some (Readable bytes) =>
      match additional_headers with
      | JObj fields =>
          match _android_headers (self s) !! "user-agent" with
          | None => (Raise KeyError, s)
          | Some agent =>
              match upload_url with
              | JStr target =>
                  let put := upload_request target fields agent bytes in
                  if sendable (headers put) then
                    match net (world s) (length (sent (world s))) with
                    | TransportError => (Raise RequestError, logged put s)
                    | Response code _ =>
                        if is_success code then (Ret tt, logged put s)
                        else (Raise (ReminiError (GcsUploadFailed code)), logged put s)
                    end
                  else (Raise TypeError, s)
              | _ => (Raise TypeError, s)
              end
          end
      | JArr _ => (Raise TypeError, s)
      | _ => (Raise AttributeError, s)
      end
  end.
Proof.
  unfold _upload_file_to_gcs, try_except. rewrite bind_run. unfold read_file.
  destruct (fs (world s) !! file_path) as [[|bytes]|]; try reflexivity.
  rewrite bind_run. cbn [get_self].
  destruct additional_headers as [| | | | |fields]; try reflexivity.
  rewrite bind_run. unfold user_agent.
  destruct (_android_headers (self s) !! "user-agent") as [agent|]; [| reflexivity].
  cbn [ret]. rewrite bind_run.
  destruct upload_url as [| | |target| |]; try reflexivity.
  cbn [url_of ret]. rewrite bind_run.
  fold (upload_request target fields agent bytes). cbv zeta.
  destruct (sendable (headers (upload_request target fields agent bytes))) eqn:Hsend;
    [rewrite (http_run _ _ Hsend) | rewrite (http_blocked _ _ Hsend); reflexivity].
  destruct (net (world s) (length (sent (world s)))) as [|code payload]; [reflexivity |].
  unfold raise_for_status. cbn [fst]. destruct (is_success code); reflexivity.
Qed.

(** The upload PUT carries the bytes of the file and the headers the
    service asked for, with [Content-Length] and [User-Agent] set by the
    client.  The session token is not added: the request has an
    [identity-token] header only if the service's upload headers have one.
    A 2xx answer ends the upload; any other status raises [ReminiError]. *)
Theorem upload_sends_file_without_token {platform : Platform} (target file_path : string)
    (fields : list (string * json)) (s : State) (bytes : content) (agent : string) :
  fs (world s) !! file_path = Some (Readable bytes) ->
  _android_headers (self s) !! "user-agent" = Some agent ->
  sendable (list_to_map fields) = true ->
  let put := upload_request target fields agent bytes in
  _upload_file_to_gcs (JStr target) file_path (JObj fields) s
  = (match net (world s) (length (sent (world s))) with
     | TransportError => Raise RequestError
     | Response code _ =>
         if is_success code then Ret tt else Raise (ReminiError (GcsUploadFailed code))
     end, logged put s)
  /\ meth put = PUT
  /\ body put = Some bytes
  /\ headers put !! "identity-token"
     = (list_to_map fields : gmap string json) !! "identity-token"
  /\ headers put !! "Content-Length"
     = Some (JStr (str_of_int (getsize (Readable bytes))))
  /\ headers put !! "User-Agent" = Some (JStr agent).
Proof.
  intros Hfile Hagent Hfields put.
  split; [| repeat split; try reflexivity].
  - rewrite upload_run, Hfile, Hagent. cbv zeta. fold put.
    replace (sendable (headers put)) with true
      by (symmetry; subst put; cbn [upload_request headers];
          repeat apply sendable_insert_str; exact Hfields).
    destruct (net (world s) (length (sent (world s)))) as [|code payload]; [reflexivity |].
    destruct (is_success code); reflexivity.
  - subst put. cbn [upload_request headers].
    rewrite !lookup_insert_ne by discriminate. reflexivity.
  - subst put. cbn [upload_request headers].
    rewrite lookup_insert_ne by discriminate. apply lookup_insert_eq.
  - apply lookup_insert_eq.
Qed.

Lemma upload_sends_file_without_token_witness :
  let s := {| self := with_token example_client (JStr "eyJhbGciOi");
              world := example_world photo (fun _ => Response 403 (Garbled "Forbidden")) |} in
  let put := upload_request (platform := example_platform) "https://storage/upload/T1"
               [("x-goog-meta", JStr "1")] "okhttp/4.12.0" (Binary "JFIF") in
  _upload_file_to_gcs (platform := example_platform) (JStr "https://storage/upload/T1")
    "/home/u/photo.jpg" (JObj [("x-goog-meta", JStr "1")]) s
  = (Raise (ReminiError (GcsUploadFailed 403)), logged put s)
  /\ meth put = PUT
  /\ body put = Some (Binary "JFIF")
  /\ headers put !! "identity-token" = None
  /\ headers put !! "Content-Length" = Some (JStr "42")
  /\ headers put !! "User-Agent" = Some (JStr "okhttp/4.12.0").
Proof.
  intros s put.
  apply (upload_sends_file_without_token (platform := example_platform)
           "https://storage/upload/T1" "/home/u/photo.jpg" [("x-goog-meta", JStr "1")]
           s (Binary "JFIF") "okhttp/4.12.0").
  - reflexivity.
  - reflexivity.
  - reflexivity.
Defined.

(** The upload sends a request only when the upload URL is a string and
    the upload headers are a dict: values of another type, which the
    truth test of [_create_image_task] lets through, make it raise with
    nothing sent. *)
Theorem upload_needs_str_and_dict {platform : Platform} (upload_url : json)
    (file_path : string) (additional_headers : json) (s s' : State) (o : outcome unit) :
  _upload_file_to_gcs upload_url file_path additional_headers s = (o, s') ->
  requests_between s s' <> [] ->
  exists target fields, upload_url = JStr target /\ additional_headers = JObj fields.
Proof.
  rewrite upload_run. intros Hrun Hsent.
  assert (Hstay : s' = s -> False)
    by (intros ->; apply Hsent, requests_between_refl).
  destruct (fs (world s) !! file_path) as [[|bytes]|];
    try (injection Hrun as _ <-; exfalso; apply Hstay; reflexivity).
  destruct additional_headers as [| | | | |fields];
    try (injection Hrun as _ <-; exfalso; apply Hstay; reflexivity).
  destruct (_android_headers (self s) !! "user-agent") as [agent|];
    [| injection Hrun as _ <-; exfalso; apply Hstay; reflexivity].
  destruct upload_url as [| | |target| |];
    try (injection Hrun as _ <-; exfalso; apply Hstay; reflexivity).
  eauto.
Qed.

Lemma upload_needs_str_and_dict_witness :
  let s := {| self := example_client;
              world := example_world photo accepting_service |} in
  let run := _upload_file_to_gcs (platform := example_platform)
               (JStr "https://storage/upload/T1") "/home/u/photo.jpg"
               (JObj [("x-goog-meta", JStr "1")]) s in
  exists target fields,
    JStr "https://storage/upload/T1" = JStr target
    /\ JObj [("x-goog-meta", JStr "1")] = JObj fields.
Proof.
  intros s run.
  apply (upload_needs_str_and_dict (platform := example_platform)
           (JStr "https://storage/upload/T1") "/home/u/photo.jpg"
           (JObj [("x-goog-meta", JStr "1")]) s (snd run) (fst run)).
  - apply surjective_pairing.
  - vm_compute. discriminate.
Defined.

Lemma reprocess_run {platform : Platform} (base_task_id feature : json) (s : State) :
  _reprocess_image_task base_task_id feature s =
  let request := reprocess_request (self s) base_task_id feature in
  if sendable (headers request) then
    match net (world s) (length (sent (world s))) with
    | TransportError => (Raise RequestError, logged request s)
    | Response code payload =>
        if is_success code then
          match payload with
          | Json data =>
              match dict_get data "task_id" JNull with
              | Some new_task_id =>
                  if truthy new_task_id then (Ret new_task_id, logged request s)
                  else (Raise (ReminiError (NoNewTaskId data)), logged request s)
              | None => (Raise AttributeError, logged request s)
              end
          | Garbled _ => (Raise JSONDecodeError, logged request s)
          | Binary _ => (Raise UnicodeDecodeError, logged request s)
          end
        else (Raise (ReminiError (ReprocessFailed code)), logged request s)
    end
  else (Raise TypeError, s).
Proof.
  unfold _reprocess_image_task, try_except. rewrite bind_run. cbn [get_self].
  rewrite bind_run. fold (reprocess_request (self s) base_task_id feature). cbv zeta.
  destruct (sendable (headers (reprocess_request (self s) base_task_id feature))) eqn:Hsend;
    [rewrite (http_run _ _ Hsend) | rewrite (http_blocked _ _ Hsend); reflexivity].
  destruct (net (world s) (length (sent (world s)))) as [|code payload]; [reflexivity |].
  rewrite bind_run. unfold raise_for_status. cbn [fst snd].
  destruct (is_success code); [| reflexivity].
  cbv [ret bind]. destruct payload as [data| |]; cbv [json_of ret raise py_get];
    try reflexivity.
  destruct (dict_get data "task_id" JNull) as [new_task_id|]; [| reflexivity].
  destruct (truthy new_task_id); reflexivity.
Qed.

(** What [_reprocess_image_task] returns is the [task_id] of a 2xx JSON
    answer to its one request, and it passes the truth test; a 2xx JSON
    object without a [task_id] raises [ReminiError] instead. *)
Theorem reprocess_returns_answered_task_id {platform : Platform}
    (base_task_id feature : json) (s : State) :
  (forall (s' : State) (v : json),
     _reprocess_image_task base_task_id feature s = (Ret v, s') ->
     truthy v = true
     /\ s' = logged (reprocess_request (self s) base_task_id feature) s
     /\ exists code data,
          net (world s) (length (sent (world s))) = Response code (Json data)
          /\ is_success code = true
          /\ dict_get data "task_id" JNull = Some v)
  /\ (forall code fields,
        (truthy (identity_token (self s)) = true -> is_str (identity_token (self s)) = true) ->
        net (world s) (length (sent (world s))) = Response code (Json (JObj fields)) ->
        is_success code = true ->
        assoc "task_id" fields = None ->
        _reprocess_image_task base_task_id feature s
        = (Raise (ReminiError (NoNewTaskId (JObj fields))),
           logged (reprocess_request (self s) base_task_id feature) s)).
Proof.
  split.
  - intros s' v. rewrite reprocess_run. cbv zeta.
    destruct (sendable _); [| discriminate].
    destruct (net (world s) (length (sent (world s)))) as [|code payload]; [discriminate |].
    destruct (is_success code) eqn:Hcode; [| discriminate].
    destruct payload as [data| |]; try discriminate.
    destruct (dict_get data "task_id" JNull) as [new_task_id|] eqn:Hid; [| discriminate].
    destruct (truthy new_task_id) eqn:Htruthy; [| discriminate].
    intros [= <- <-]. split; [exact Htruthy |]. split; [reflexivity |].
    exists code, data. repeat split; assumption.
  - intros code fields Hstr Hnet Hcode Hmissing. rewrite reprocess_run. cbv zeta.
    replace (sendable (headers (reprocess_request (self s) base_task_id feature)))
      with true by (symmetry; apply common_headers_sendable, Hstr).
    rewrite Hnet, Hcode. cbn [dict_get]. rewrite Hmissing. reflexivity.
Qed.

Lemma reprocess_returns_answered_task_id_witness :
  let s := {| self := with_token example_client (JStr "eyJhbGciOi");
              world := example_world ∅ (fun _ => Response 200 (Json (JObj [("task_id", JStr "T2")]))) |} in
  let request := reprocess_request (platform := example_platform) (self s) (JStr "T1")
                   (style_feature "toon") in
  truthy (JStr "T2") = true
  /\ logged request s = logged request s
  /\ exists code data,
       net (world s) (length (sent (world s))) = Response code (Json data)
       /\ is_success code = true
       /\ dict_get data "task_id" JNull = Some (JStr "T2").
Proof.
  intros s request.
  apply (proj1 (reprocess_returns_answered_task_id (platform := example_platform)
                  (JStr "T1") (style_feature "toon") s)
           (logged request s) (JStr "T2")).
  vm_compute. reflexivity.
Defined.

Lemma ping_run {platform : Platform} (task_id : json) (s : State) :
  _ping_for_processing task_id s =
  let request := ping_request (self s) task_id in
  if sendable (headers request) then
    match net (world s) (length (sent (world s))) with
    | TransportError => (Raise RequestError, logged request s)
    | Response code _ =>
        if is_success code then (Ret tt, logged request s)
        else (Raise (ReminiError (PingFailed code)), logged request s)
    end
  else (Raise TypeError, s).
Proof.
  unfold _ping_for_processing, try_except. rewrite bind_run. cbn [get_self].
  rewrite bind_run. fold (ping_request (self s) task_id). cbv zeta.
  destruct (sendable (headers (ping_request (self s) task_id))) eqn:Hsend;
    [rewrite (http_run _ _ Hsend) | rewrite (http_blocked _ _ Hsend); reflexivity].
  destruct (net (world s) (length (sent (world s)))) as [|code payload]; [reflexivity |].
  unfold raise_for_status. cbn [fst]. destruct (is_success code); reflexivity.
Qed.

(** The processing trigger is one bodiless POST to the task's [process]
    path, with [content-length] zero and the session token.  Its outcome
    depends on the status code alone: the body of the answer is never
    read, so any 2xx answer lets the workflow go on. *)
Theorem ping_depends_on_status_only {platform : Platform} (task_id : json) (s : State)
    (t : string) (code : Z) (payload : content) :
  identity_token (self s) = JStr t ->
  t <> "" ->
  net (world s) (length (sent (world s))) = Response code payload ->
  let ping := ping_request (self s) task_id in
  _ping_for_processing task_id s
  = (if is_success code then Ret tt else Raise (ReminiError (PingFailed code)),
     logged ping s)
  /\ meth ping = POST
  /\ url ping = REMINI_API_BASE_URL +:+ "/tasks/" +:+ py_str task_id +:+ "/process"
  /\ body ping = None
  /\ headers ping !! "content-length" = Some (JStr "0")
  /\ carries_token ping (JStr t).
Proof.
  intros Htok Hne Hnet ping.
  assert (Htruthy : truthy (identity_token (self s)) = true)
    by (rewrite Htok; apply truthy_nonempty, Hne).
  split; [| repeat split; try reflexivity].
  - rewrite ping_run. cbv zeta. fold ping.
    replace (sendable (headers ping)) with true
      by (symmetry; subst ping; cbn [ping_request headers];
          apply sendable_insert_str, common_headers_sendable;
          intros _; rewrite Htok; reflexivity).
    rewrite Hnet. destruct (is_success code); reflexivity.
  - apply lookup_insert_eq.
  - unfold carries_token. subst ping. cbn [ping_request headers].
    rewrite lookup_insert_ne by discriminate.
    rewrite <- Htok. apply common_headers_token, Htruthy.
Qed.

Lemma ping_depends_on_status_only_witness :
  let s := {| self := with_token example_client (JStr "eyJhbGciOi");
              world := example_world ∅ (fun _ => Response 204 (Binary "")) |} in
  let ping := ping_request (platform := example_platform) (self s) (JStr "T1") in
  _ping_for_processing (platform := example_platform) (JStr "T1") s
  = (Ret tt, logged ping s)
  /\ meth ping = POST
  /\ url ping = "https://a.android.api.remini.ai/v1/mobile/tasks/T1/process"
  /\ body ping = None
  /\ headers ping !! "content-length" = Some (JStr "0")
  /\ carries_token ping (JStr "eyJhbGciOi").
Proof.
  intros s ping.
  apply (ping_depends_on_status_only (platform := example_platform) (JStr "T1") s
           "eyJhbGciOi" 204 (Binary "")).
  - reflexivity.
  - discriminate.
  - reflexivity.
Defined.



(** *** The workflows *)

#[local] Instance kept_preorder (q : string) (dest_of : datetime -> string) :
  PreOrder (kept q dest_of).
Proof.
  split.
  - intros s. repeat split.
  - intros s1 s2 s3 [Hp1 [Hk1 Hf1]] [Hp2 [Hk2 Hf2]].
    split; [congruence |]. split; [congruence |].
    intros Hq Hd. rewrite Hf2, Hf1; try assumption; congruence.
Qed.

Lemma respects_weaken (R R' : relation State) {A : Type} (m : M A) :
  (forall s s', R s s' -> R' s s') -> respects R m -> respects R' m.
Proof. intros Hsub Hm s s' o Hrun. exact (Hsub _ _ (Hm _ _ _ Hrun)). Qed.

Lemma undisturbed_kept (q : string) (dest_of : datetime -> string) (s s' : State) :
  undisturbed s s' -> kept q dest_of s s'.
Proof.
  intros [Hself [Hfs [_ Hclock]]]. split; [congruence |]. split; [exact Hclock |].
  intros _ _. rewrite Hfs. reflexivity.
Qed.


Lemma download_fs (u : json) (output_path : string) (s s' : State) (o : outcome unit) :
  _download_file u output_path s = (o, s') ->
  self s' = self s
  /\ clock (world s') = clock (world s)
  /\ (fs (world s') = fs (world s)
      \/ exists payload, fs (world s') = <[output_path := Readable payload]> (fs (world s))).
Proof.
  rewrite download_run.
  destruct (_android_headers (self s) !! "user-agent") as [agent|];
    [| intros [= _ <-]; repeat split; left; reflexivity].
  destruct u as [| | |target| |]; try (intros [= _ <-]; repeat split; left; reflexivity).
  cbv zeta.
  destruct (net (world s) (length (sent (world s)))) as [|code payload];
    [intros [= _ <-]; repeat split; left; reflexivity |].
  destruct (is_success code); intros [= _ <-]; repeat split;
    [right; exists payload | left]; reflexivity.
Qed.

Lemma kept_login (q : string) (dest_of : datetime -> string) :
  respects (kept q dest_of) _login.
Proof.
  intros s s' o Hrun.
  destruct (continues_login _ _ _ Hrun) as [Hpath [_ [Hclock _]]].
  split; [exact Hpath |]. split; [exact Hclock |]. intros Hq _.
  destruct (login_fs_cases _ _ _ Hrun) as [-> | [token [n [_ [_ ->]]]]]; [reflexivity |].
  apply lookup_insert_ne. congruence.
Qed.

Lemma process_common_run (image_path : string) (output_path : option string)
    (verbose : bool) (final_url : json) (s : State) :
  _process_common image_path output_path verbose final_url s
  = if truthy final_url
    then _download_file final_url (destination image_path output_path (clock (world s))) s
    else (Raise (ReminiError NoFinalUrl), s).
Proof.
  unfold _process_common, destination. destruct (truthy final_url); reflexivity.
Qed.

Lemma kept_process_common (q image_path : string) (output_path : option string)
    (verbose : bool) (final_url : json) :
  respects (kept q (destination image_path output_path))
    (_process_common image_path output_path verbose final_url).
Proof.
  intros s s' o. rewrite process_common_run.
  destruct (truthy final_url); [| intros [= _ <-]; reflexivity].
  intros Hrun. destruct (download_fs _ _ _ _ _ Hrun) as [Hself [Hclock Hfs]].
  split; [congruence |]. split; [exact Hclock |]. intros _ Hd.
  destruct Hfs as [-> | [payload ->]]; [reflexivity |].
  apply lookup_insert_ne. congruence.
Qed.

Lemma kept_process {platform : Platform} (q : string) (fuel : nat) (image_path : string)
    (output_path : option string) (verbose : bool) :
  respects (kept q (destination image_path output_path))
    (process fuel image_path output_path verbose).
Proof.
  unfold process.
  pose proof (kept_login q (destination image_path output_path)).
  pose proof (fun f => respects_weaken _ _ _ (undisturbed_kept q (destination image_path output_path))
                         (undisturbed_create image_path f)).
  pose proof (fun t => respects_weaken _ _ _ (undisturbed_kept q (destination image_path output_path))
                         (undisturbed_ping t)).
  pose proof (fun t => respects_weaken _ _ _ (undisturbed_kept q (destination image_path output_path))
                         (undisturbed_poll fuel t)).
  pose proof (kept_process_common q image_path output_path verbose).
  respects_walk.
Qed.

Lemma kept_stylize {platform : Platform} (q : string) (fuel : nat) (image_path style : string)
    (output_path : option string) (verbose : bool) :
  respects (kept q (destination image_path output_path))
    (stylize fuel image_path style output_path verbose).
Proof.
  unfold stylize.
  pose proof (kept_login q (destination image_path output_path)).
  pose proof (fun f => respects_weaken _ _ _ (undisturbed_kept q (destination image_path output_path))
                         (undisturbed_create image_path f)).
  pose proof (fun t => respects_weaken _ _ _ (undisturbed_kept q (destination image_path output_path))
                         (undisturbed_ping t)).
  pose proof (fun t => respects_weaken _ _ _ (undisturbed_kept q (destination image_path output_path))
                         (undisturbed_poll fuel t)).
  pose proof (fun t f => respects_weaken _ _ _ (undisturbed_kept q (destination image_path output_path))
                           (undisturbed_reprocess t f)).
  pose proof (kept_process_common q image_path output_path verbose).
  respects_walk.
Qed.

(** However they end, the two workflows change no file other than the
    token file and the destination: every other path, the input image
    included, holds what it held before. *)
Theorem workflows_touch_only_cache_and_destination {platform : Platform} (fuel : nat)
    (image_path style : string) (output_path : option string) (verbose : bool)
    (s s' : State) (o : outcome unit) (q : string) :
  process fuel image_path output_path verbose s = (o, s')
  \/ stylize fuel image_path style output_path verbose s = (o, s') ->
  q <> token_path (self s) ->
  q <> destination image_path output_path (clock (world s)) ->
  fs (world s') !! q = fs (world s) !! q.
Proof.
  intros [Hrun | Hrun] Hq Hd.
  - destruct (kept_process q fuel image_path output_path verbose _ _ _ Hrun) as [_ [_ Hfs]].
    exact (Hfs Hq Hd).
  - destruct (kept_stylize q fuel image_path style output_path verbose _ _ _ Hrun)
      as [_ [_ Hfs]].
    exact (Hfs Hq Hd).
Qed.

Lemma workflows_touch_only_cache_and_destination_witness :
  let s := {| self := example_client;
              world := example_world photo_and_token stylizing_service |} in
  let run := stylize (platform := example_platform) 2 "/home/u/photo.jpg" "toon"
               (Some "toon.jpg") true s in
  fs (world (snd run)) !! "/home/u/photo.jpg" = fs (world s) !! "/home/u/photo.jpg".
Proof.
  intros s run.
  apply (workflows_touch_only_cache_and_destination (platform := example_platform) 2
           "/home/u/photo.jpg" "toon" (Some "toon.jpg") true s (snd run) (fst run)).
  - right. apply surjective_pairing.
  - discriminate.
  - discriminate.
Defined.

Lemma str_length_app (a b : string) :
  String.length (a +:+ b) = String.length a + String.length b.
Proof.
  induction a as [|c a IH]; [reflexivity |].
  rewrite append_cons. cbn [String.length]. rewrite IH. reflexivity.
Qed.

Lemma rfind_no_slash (p : string) (i : Z) :
  has_slash p = false -> rfind_from "/" p i = (-1)%Z.
Proof.
  revert i. induction p as [|c r IH]; intros i; [reflexivity |].
  cbn [has_slash rfind_from]. intros Hno. apply orb_false_elim in Hno as [Hc Hr].
  rewrite (IH (i + 1)%Z Hr), Hc. reflexivity.
Qed.

Lemma strftime_length (t : datetime) : String.length (strftime t) = 15.
Proof. unfold strftime, pad4, pad2. rewrite !str_length_app. reflexivity. Qed.

(** The default destination is never the input path itself. *)
Lemma default_output_path_fresh (image_path : string) (now : datetime) :
  default_output_path image_path now <> image_path.
Proof.
  intros Heq.
  pose proof (default_output_path_no_slash image_path now) as Hno.
  rewrite Heq in Hno.
  assert (Hbase : basename image_path = image_path).
  { unfold basename, rfind. rewrite (rfind_no_slash _ 0 Hno). reflexivity. }
  apply (f_equal String.length) in Heq. unfold default_output_path in Heq.
  pose proof (splitext_join (basename image_path)) as Hjoin.
  destruct (splitext (basename image_path)) as [name ext]. cbn [fst snd] in Hjoin.
  rewrite Hbase in Hjoin. apply (f_equal String.length) in Hjoin.
  rewrite !str_length_app, strftime_length in Heq. rewrite str_length_app in Hjoin.
  cbn [String.length] in Heq. lia.
Qed.

(** With no output path given, a workflow never overwrites its input: the
    image file holds what it held before, however the workflow ends
    (the image not being the token file). *)
Theorem default_destination_spares_input {platform : Platform} (fuel : nat)
    (image_path style : string) (output_path : option string) (verbose : bool)
    (s s' : State) (o : outcome unit) :
  unspecified output_path = true ->
  image_path <> token_path (self s) ->
  process fuel image_path output_path verbose s = (o, s')
  \/ stylize fuel image_path style output_path verbose s = (o, s') ->
  fs (world s') !! image_path = fs (world s) !! image_path.
Proof.
  intros Hunspec Hpath Hrun.
  assert (Hdest : image_path <> destination image_path output_path (clock (world s))).
  { unfold destination. rewrite Hunspec. intros Heq. symmetry in Heq.
    exact (default_output_path_fresh _ _ Heq). }
  destruct Hrun as [Hrun | Hrun].
  - destruct (kept_process image_path fuel image_path output_path verbose _ _ _ Hrun)
      as [_ [_ Hfs]].
    exact (Hfs Hpath Hdest).
  - destruct (kept_stylize image_path fuel image_path style output_path verbose _ _ _ Hrun)
      as [_ [_ Hfs]].
    exact (Hfs Hpath Hdest).
Qed.

Lemma default_destination_spares_input_witness :
  let s := {| self := example_client;
              world := example_world photo_and_token stylizing_service |} in
  let run := stylize (platform := example_platform) 2 "/home/u/photo.jpg" "toon" None true s in
  fs (world (snd run)) !! "/home/u/photo.jpg" = fs (world s) !! "/home/u/photo.jpg".
Proof.
  intros s run.
  apply (default_destination_spares_input (platform := example_platform) 2
           "/home/u/photo.jpg" "toon" None true s (snd run) (fst run)).
  - reflexivity.
  - discriminate.
  - right. apply surjective_pairing.
Defined.

(** Once the task has been created, pinged and polled to the end,
    [process] goes one of two ways: if the poll returned [None] it raises
    [ReminiError] in the state the poll left, with no download; if the
    poll returned a URL, what remains is the download of that URL to the
    destination. *)
Theorem process_downloads_polled_url {platform : Platform} (fuel : nat)
    (image_path : string) (output_path : option string) (verbose : bool)
    (s s1 s2 s3 s4 : State) (f : file) (task_id final_url : json) :
  fs (world s) !! image_path = Some f ->
  _login s = (Ret tt, s1) ->
  _create_image_task image_path enhance_feature s1 = (Ret task_id, s2) ->
  _ping_for_processing task_id s2 = (Ret tt, s3) ->
  _poll_status_http fuel task_id s3 = (Ret final_url, s4) ->
  (final_url = JNull \/ truthy final_url = true)
  /\ (final_url = JNull ->
      process fuel image_path output_path verbose s = (Raise (ReminiError NoFinalUrl), s4))
  /\ (truthy final_url = true ->
      process fuel image_path output_path verbose s
      = _download_file final_url
          (destination image_path output_path (clock (world s))) s4).
Proof.
  intros Hfile Hlogin Hcreate Hping Hpoll.
  assert (Hrun : process fuel image_path output_path verbose s
                 = _process_common image_path output_path verbose final_url s4).
  { unfold process. rewrite bind_run, (path_exists_present _ _ _ Hfile). cbn [negb].
    rewrite bind_run, Hlogin, bind_run, Hcreate, bind_run, Hping, bind_run, Hpoll.
    reflexivity. }
  rewrite Hrun, process_common_run.
  split; [exact (poll_value _ _ _ _ _ Hpoll) |].
  split; [intros ->; reflexivity |].
  intros ->.
  destruct (continues_login _ _ _ Hlogin) as [_ [_ [Hc1 _]]].
  destruct (undisturbed_create _ _ _ _ _ Hcreate) as [_ [_ [_ Hc2]]].
  destruct (undisturbed_ping _ _ _ _ Hping) as [_ [_ [_ Hc3]]].
  destruct (undisturbed_poll _ _ _ _ _ Hpoll) as [_ [_ [_ Hc4]]].
  replace (clock (world s4)) with (clock (world s)) by congruence. reflexivity.
Qed.

Lemma process_downloads_polled_url_witness :
  let s := {| self := example_client;
              world := example_world photo_and_token stylizing_service |} in
  let s1 := snd (_login s) in
  let s2 := snd (_create_image_task (platform := example_platform)
                   "/home/u/photo.jpg" enhance_feature s1) in
  let s3 := snd (_ping_for_processing (platform := example_platform) (JStr "T1") s2) in
  let s4 := snd (_poll_status_http (platform := example_platform) 2 (JStr "T1") s3) in
  let run := process (platform := example_platform) 2 "/home/u/photo.jpg" (Some "out.jpg") true in
  (JStr "https://x/base.jpg" = JNull \/ truthy (JStr "https://x/base.jpg") = true)
  /\ (JStr "https://x/base.jpg" = JNull ->
      run s = (Raise (ReminiError NoFinalUrl), s4))
  /\ (truthy (JStr "https://x/base.jpg") = true ->
      run s = _download_file (JStr "https://x/base.jpg") "out.jpg" s4).
Proof.
  intros s s1 s2 s3 s4 run.
  apply (process_downloads_polled_url (platform := example_platform) 2
           "/home/u/photo.jpg" (Some "out.jpg") true s s1 s2 s3 s4
           (Readable (Binary "JFIF")) (JStr "T1") (JStr "https://x/base.jpg")).
  - reflexivity.
  - vm_compute. reflexivity.
  - vm_compute. reflexivity.
  - vm_compute. reflexivity.
  - vm_compute. reflexivity.
Defined.

Lemma create_ret {platform : Platform} (file_path : string) (feature : json)
    (s s' : State) (task_id : json) :
  _create_image_task file_path feature s = (Ret task_id, s') ->
  exists bytes target fields agent,
    fs (world s) !! file_path = Some (Readable bytes)
    /\ _android_headers (self s) !! "user-agent" = Some agent
    /\ s' = logged (upload_request target fields agent bytes)
              (logged (create_request (self s) file_path feature (Readable bytes) bytes) s).
Proof.
  rewrite create_task_run.
  destruct (fs (world s) !! file_path) as [[|bytes]|] eqn:Hfile; try discriminate.
  cbv zeta. destruct (sendable _); [| discriminate].
  destruct (net (world s) (length (sent (world s)))) as [|code payload]; [discriminate |].
  destruct (is_success code); [| discriminate].
  destruct payload as [[| | | | |fields]| |]; try discriminate.
  destruct (all_truthy _); [| discriminate].
  rewrite bind_run, upload_run. cbn [logged world log_request fs self]. rewrite Hfile.
  destruct (default JNull (assoc "upload_headers" fields)) as [| | | | |ufields];
    try discriminate.
  destruct (_android_headers (self s) !! "user-agent") as [agent|]; [| discriminate].
  destruct (default JNull (assoc "upload_url" fields)) as [| | |target| |];
    try discriminate.
  cbv zeta. destruct (sendable _); [| discriminate].
  destruct (net _ _) as [|code2 payload2]; [discriminate |].
  destruct (is_success code2); [| discriminate].
  intros [= _ <-]. exists bytes, target, ufields, agent. repeat split.
Qed.

Lemma ping_ret {platform : Platform} (task_id : json) (s s' : State) :
  _ping_for_processing task_id s = (Ret tt, s') ->
  s' = logged (ping_request (self s) task_id) s.
Proof.
  rewrite ping_run. cbv zeta. destruct (sendable _); [| discriminate].
  destruct (net (world s) (length (sent (world s)))) as [|code payload]; [discriminate |].
  destruct (is_success code); [| discriminate].
  intros [= <-]. reflexivity.
Qed.

Lemma process_common_ret (image_path : string) (output_path : option string)
    (verbose : bool) (final_url : json) (s s' : State) :
  _process_common image_path output_path verbose final_url s = (Ret tt, s') ->
  exists final agent,
    final_url = JStr final
    /\ _android_headers (self s) !! "user-agent" = Some agent
    /\ sent (world s') = sent (world s) ++ [download_request final agent].
Proof.
  rewrite process_common_run. destruct (truthy final_url); [| discriminate].
  rewrite download_run.
  destruct (_android_headers (self s) !! "user-agent") as [agent|] eqn:Hagent;
    [| discriminate].
  destruct final_url as [| | |final| |]; try discriminate.
  cbv zeta.
  destruct (net (world s) (length (sent (world s)))) as [|code payload]; [discriminate |].
  destruct (is_success code); [| discriminate].
  intros [= <-]. exists final, agent. repeat split.
Qed.

(** The order of an enhancement that returns.  After the login, the
    requests are: the task creation, the upload, the processing trigger,
    one or more identical status requests, and last the download of the
    polled URL.  No status request precedes the upload, and nothing
    follows the download. *)
Theorem process_request_order {platform : Platform} (fuel : nat) (image_path : string)
    (output_path : option string) (verbose : bool) (s s1 s' : State) :
  _login s = (Ret tt, s1) ->
  process fuel image_path output_path verbose s = (Ret tt, s') ->
  exists bytes task_id target fields agent n final,
    fs (world s1) !! image_path = Some (Readable bytes)
    /\ requests_between s1 s'
       = [ create_request (self s1) image_path enhance_feature (Readable bytes) bytes;
           upload_request target fields agent bytes;
           ping_request (self s1) task_id ]
         ++ replicate (S n) (poll_request (self s1) task_id)
         ++ [download_request final agent].
Proof.
  intros Hlogin. unfold process. rewrite bind_run, path_exists_run.
  destruct (bool_decide _); [| discriminate]. cbn [negb].
  rewrite bind_run, Hlogin, bind_run.
  destruct (_create_image_task image_path enhance_feature s1) as [[task_id|e|] s2] eqn:Hcreate;
    try discriminate.
  rewrite bind_run.
  destruct (_ping_for_processing task_id s2) as [[[]|e|] s3] eqn:Hping; try discriminate.
  rewrite bind_run.
  destruct (_poll_status_http fuel task_id s3) as [[final_url|e|] s4] eqn:Hpoll;
    try discriminate.
  intros Hcommon.
  destruct (create_ret _ _ _ _ _ Hcreate)
    as [bytes [target [fields [agent [Hfile [Hagent Hs2]]]]]].
  pose proof (ping_ret _ _ _ Hping) as Hs3.
  destruct (poll_ret_polled _ _ _ _ _ Hpoll) as [n [_ Hs4]].
  destruct (process_common_ret _ _ _ _ _ _ Hcommon) as [final [agent' [_ [Hagent' Hsent]]]].
  exists bytes, task_id, target, fields, agent, n, final.
  split; [exact Hfile |].
  assert (agent' = agent).
  { rewrite Hs4, Hs3, Hs2 in Hagent'. cbn [polled logged self] in Hagent'. congruence. }
  subst agent'.
  apply requests_between_app. rewrite Hsent, Hs4.
  cbn [polled world sent]. rewrite Hs3. cbn [logged world log_request sent self].
  rewrite Hs2. cbn [logged world log_request sent self].
  rewrite <- !app_assoc. cbn [app]. reflexivity.
Qed.

Lemma process_request_order_witness :
  let s := {| self := example_client;
              world := example_world photo_and_token stylizing_service |} in
  let s1 := snd (_login s) in
  let s' := snd (process (platform := example_platform) 2 "/home/u/photo.jpg"
                   (Some "out.jpg") true s) in
  exists bytes task_id target fields agent n final,
    fs (world s1) !! "/home/u/photo.jpg" = Some (Readable bytes)
    /\ requests_between s1 s'
       = [ create_request (platform := example_platform) (self s1) "/home/u/photo.jpg"
             enhance_feature (Readable bytes) bytes;
           upload_request (platform := example_platform) target fields agent bytes;
           ping_request (platform := example_platform) (self s1) task_id ]
         ++ replicate (S n) (poll_request (platform := example_platform) (self s1) task_id)
         ++ [download_request final agent].
Proof.
  intros s s1 s'.
  apply (process_request_order (platform := example_platform) 2 "/home/u/photo.jpg"
           (Some "out.jpg") true s s1 s').
  - vm_compute. reflexivity.
  - vm_compute. reflexivity.
Defined.
